(** * Authentication and onboarding glue of the matrimonial web application

    A shallow embedding of the four route handlers and client components
    that make up the session-propagation and onboarding logic:

    - [OAuthCallback.GET]     the OAuth callback route handler,
    - [LoginRoute.POST]       the login route that trusts the framework's
                              cookie handling (app/api/auth/login/route.ts),
    - [LoginRouteManual.POST] the login route that copies the provider's
                              cookies onto the response by hand,
    - [Onboarding.handleComplete] the click handler of the onboarding
                              summary component,
    - [Open.GET]              the OAuth callback once more, over
                              collaborators whose calls may also reject.

    The identity provider, the profile table, the cookie jar of the request
    and the process environment are external collaborators.  They are
    gathered in one record, [World], which the handlers thread through a
    state-and-exception monad; every call that leaves the handler is also
    appended to a call log, so that statements such as "the provider is
    never called" can be phrased over the log.

    The provider SDK reports failure in the [error] field of the object it
    resolves to, and that is how the handlers consume it; a rejected promise
    is modelled where the platform documents one ([request.json()]) and
    where plain JavaScript evaluation raises a [TypeError] (destructuring
    [null], reading a property of [null]).  Console output is not modelled,
    except that an expression evaluated only to be logged still raises when
    JavaScript would raise. *)

From Stdlib Require Import String Ascii ZArith List Bool Lia.
From stdpp Require Import base option gmap strings list fin_maps.

Set Warnings "-register-all".

(* ===================================================================== *)
(** * JavaScript values and string primitives *)
(* ===================================================================== *)

Module Js.

(** The values a parsed JSON document or an SDK object field can hold.
    Numbers are restricted to integers: the handlers only ever test them
    for truthiness. *)
Inductive value : Type :=
| Undefined
| Null
| Boolean (b : bool)
| Number (n : Z)
| Str (s : string)
| Array (items : list value)
| Object (fields : list (string * value)).

(** [ToBoolean]: what [!v], [v || w] and [if (v)] look at. *)
Definition truthy (v : value) : bool :=
  match v with
  | Undefined | Null => false
  | Boolean b => b
  | Number n => negb (n =? 0)%Z
  | Str s => negb (String.eqb s "")
  | Array _ | Object _ => true
  end.

(** [a || b] *)
Definition or (a b : value) : value := if truthy a then a else b.

Fixpoint field (k : string) (fields : list (string * value)) : value :=
  match fields with
  | [] => Undefined
  | (k', v) :: rest => if String.eqb k k' then v else field k rest
  end.

(** [v.k]: [None] stands for the [TypeError] raised on [null] and
    [undefined]; a primitive or an array has no such named property. *)
Definition get (v : value) (k : string) : option value :=
  match v with
  | Undefined | Null => None
  | Object fields => Some (field k fields)
  | _ => Some Undefined
  end.

(** [v?.k] *)
Definition get_opt (v : value) (k : string) : value :=
  match get v k with
  | Some x => x
  | None => Undefined
  end.

(** A nullable string coming out of an SDK object. *)
Definition of_string (o : option string) : value :=
  match o with
  | Some s => Str s
  | None => Undefined
  end.

(** [s.startsWith(p)] *)
Definition startsWith (s p : string) : bool := String.prefix p s.

(** [s.split(sep)[0]] for a non-empty separator: the text before the
    first occurrence of [sep], or all of [s] when there is none. *)
Fixpoint split_head (s sep : string) : string :=
  if String.prefix sep s then EmptyString
  else match s with
       | EmptyString => EmptyString
       | String c rest => String c (split_head rest sep)
       end.

Definition hex_digit (n : N) : ascii :=
  if (n <? 10)%N then ascii_of_N (48 + n) else ascii_of_N (55 + n).

(** Characters [encodeURIComponent] leaves alone: ASCII letters and
    digits, and the marks hyphen, underscore, dot, exclamation mark, tilde,
    asterisk, apostrophe and the two round brackets. *)
Definition uri_unreserved (c : ascii) : bool :=
  let n := N_of_ascii c in
  ((65 <=? n) && (n <=? 90) || (97 <=? n) && (n <=? 122)
   || (48 <=? n) && (n <=? 57)
   || (n =? 45) || (n =? 95) || (n =? 46) || (n =? 33) || (n =? 126)
   || (n =? 42) || (n =? 39) || (n =? 40) || (n =? 41))%N.

(** [encodeURIComponent] on a UTF-8 byte string: every byte that is not
    unreserved becomes [%XX]. *)
Fixpoint encodeURIComponent (s : string) : string :=
  match s with
  | EmptyString => EmptyString
  | String c rest =>
      if uri_unreserved c then String c (encodeURIComponent rest)
      else String "%" (String (hex_digit (N_of_ascii c / 16))
                        (String (hex_digit (N_of_ascii c mod 16))
                           (encodeURIComponent rest)))
  end.

End Js.

(* ===================================================================== *)
(** * The HTTP platform: requests, responses, cookies *)
(* ===================================================================== *)

Module Http.

Inductive SameSite : Type := Strict | Lax | NoRestriction.

(** The attribute bag of a cookie; an absent attribute is [None]. *)
Record CookieOptions : Type := {
  path : option string;
  domain : option string;
  secure : option bool;
  httpOnly : option bool;
  sameSite : option SameSite;
  maxAge : option Z
}.

(** A cookie as a jar holds it under its name. *)
Record Cookie : Type := {
  cookie_value : string;
  cookie_options : CookieOptions
}.

(** An incoming request.  [origin] and [searchParams] are what the
    platform's [new URL(request.url)] yields; [json_body] is what
    [request.json()] resolves to, [None] when the body is not JSON. *)
Record Request : Type := {
  url : string;
  origin : string;
  searchParams : list (string * string);
  json_body : option Js.value
}.

Record Response : Type := {
  status : Z;
  body : option Js.value;
  location : option string;
  cookies : gmap string Cookie
}.

(** [NextResponse.json(body, { status })] *)
Definition json (b : Js.value) (st : Z) : Response :=
  {| status := st; body := Some b; location := None; cookies := ∅ |}.

(** [NextResponse.redirect(url)]: [location] holds the URL string the
    handler passes.  The platform parses and serialises it again for the
    header; that leaves a target made of a URL origin, the handler's
    constant paths and its encoded constant messages as it is. *)
Definition redirect (target : string) : Response :=
  {| status := 307; body := None; location := Some target; cookies := ∅ |}.

(** [response.cookies.set(name, value, options)] *)
Definition cookies_set (name value : string) (opts : CookieOptions)
    (r : Response) : Response :=
  {| status := status r; body := body r; location := location r;
     cookies := <[name := {| cookie_value := value; cookie_options := opts |}]>
                  (cookies r) |}.

(** [searchParams.get(name)]: the first value under that name. *)
Fixpoint searchParams_get (name : string) (ps : list (string * string))
    : option string :=
  match ps with
  | [] => None
  | (k, v) :: rest =>
      if String.eqb k name then Some v else searchParams_get name rest
  end.

End Http.

(* ===================================================================== *)
(** * External collaborators *)
(* ===================================================================== *)

Module Supabase.

(** Milliseconds since the epoch; the ISO rendering is not modelled. *)
Definition Timestamp : Type := Z.

Record User : Type := {
  id : string;
  email : option string;
  user_metadata : Js.value
}.

Record Session : Type := {
  access_token : string;
  refresh_token : string;
  expires_in : Z;
  expires_at : Z;
  session_user : User
}.

(** What [signInWithPassword] and [exchangeCodeForSession] resolve to:
    [{ data: { user, session }, error }].  [written_cookies] are the
    cookies the client library hands to its cookie callback when it stores
    the new session. *)
Record AuthResponse : Type := {
  data_user : option User;
  data_session : option Session;
  error : option string;
  written_cookies : list (string * Http.Cookie)
}.

(** A row of the [profiles] table. *)
Record Profile : Type := {
  user_id : string;
  profile_email : option string;
  full_name : Js.value;
  is_admin : bool;
  registered_at : option Timestamp;
  created_at : Timestamp;
  updated_at : Timestamp
}.

(** The payload of an insert into [profiles]. *)
Record NewProfile : Type := {
  new_user_id : string;
  new_email : option string;
  new_full_name : Js.value;
  new_registered_at : option Timestamp;
  new_created_at : Timestamp;
  new_updated_at : Timestamp
}.

(** The row the table holds for a payload; [is_admin] is not part of the
    payload and takes the column default. *)
Definition stored (r : NewProfile) : Profile :=
  {| user_id := new_user_id r; profile_email := new_email r;
     full_name := new_full_name r; is_admin := false;
     registered_at := new_registered_at r;
     created_at := new_created_at r; updated_at := new_updated_at r |}.

(** Calls that leave the handler, in the order they are made. *)
Inductive Call : Type :=
| SignInWithPassword (email password : Js.value)
| ExchangeCodeForSession (code : string)
| SelectProfile (uid : string)
| InsertProfile (row : NewProfile)
| SignOut.

(** Everything outside the handler:
    - [node_env]: [process.env.NODE_ENV];
    - [provider_password], [provider_exchange]: how the identity provider
      answers a password sign-in and a code exchange;
    - [store_refuses]: the error with which the profile table turns down a
      row, if it does;
    - [session]: the session the provider's client currently holds;
    - [profiles]: the profile table, keyed by its unique [user_id];
    - [cookie_jar]: the cookie store of the request ([cookies()]);
    - [now]: the clock;
    - [calls]: the log of calls made so far. *)
Record World : Type := {
  node_env : string;
  provider_password : Js.value -> Js.value -> AuthResponse;
  provider_exchange : string -> AuthResponse;
  store_refuses : NewProfile -> option string;
  session : option Session;
  profiles : gmap string Profile;
  cookie_jar : gmap string Http.Cookie;
  now : Timestamp;
  calls : list Call
}.

Definition log_call (c : Call) (w : World) : World :=
  {| node_env := node_env w; provider_password := provider_password w;
     provider_exchange := provider_exchange w;
     store_refuses := store_refuses w; session := session w;
     profiles := profiles w; cookie_jar := cookie_jar w; now := now w;
     calls := calls w ++ [c] |}.

Definition set_session (s : option Session) (w : World) : World :=
  {| node_env := node_env w; provider_password := provider_password w;
     provider_exchange := provider_exchange w;
     store_refuses := store_refuses w; session := s;
     profiles := profiles w; cookie_jar := cookie_jar w; now := now w;
     calls := calls w |}.

Definition set_profiles (ps : gmap string Profile) (w : World) : World :=
  {| node_env := node_env w; provider_password := provider_password w;
     provider_exchange := provider_exchange w;
     store_refuses := store_refuses w; session := session w;
     profiles := ps; cookie_jar := cookie_jar w; now := now w;
     calls := calls w |}.

Definition set_cookie_jar (j : gmap string Http.Cookie) (w : World) : World :=
  {| node_env := node_env w; provider_password := provider_password w;
     provider_exchange := provider_exchange w;
     store_refuses := store_refuses w; session := session w;
     profiles := profiles w; cookie_jar := j; now := now w;
     calls := calls w |}.

Definition set_now (t : Timestamp) (w : World) : World :=
  {| node_env := node_env w; provider_password := provider_password w;
     provider_exchange := provider_exchange w;
     store_refuses := store_refuses w; session := session w;
     profiles := profiles w; cookie_jar := cookie_jar w; now := t;
     calls := calls w |}.

End Supabase.

(* ===================================================================== *)
(** * Asynchronous handler code: state and exceptions *)
(* ===================================================================== *)

Module Task.
Import Supabase.

Inductive Outcome (A : Type) : Type :=
| Returned (a : A)
| Thrown (e : string).
Arguments Returned {A} a.
Arguments Thrown {A} e.

(** A piece of handler code: it runs in a world, changes it, and either
    returns or throws. *)
Definition Task (A : Type) : Type := World -> Outcome A * World.

#[global] Instance task_ret : MRet Task := λ A a w, (Returned a, w).

#[global] Instance task_bind : MBind Task := λ A B f m w,
  match m w with
  | (Returned a, w') => f a w'
  | (Thrown e, w') => (Thrown e, w')
  end.

Definition throw {A : Type} (e : string) : Task A := λ w, (Thrown e, w).

(** [try { body } catch (e) { handler }] *)
Definition try_catch {A : Type} (body : Task A) (handler : string -> Task A)
    : Task A := λ w,
  match body w with
  | (Returned a, w') => (Returned a, w')
  | (Thrown e, w') => handler e w'
  end.

(** Reading a property of a possibly-null SDK object. *)
Definition non_null {A : Type} (o : option A) : Task A :=
  match o with
  | Some a => mret a
  | None => throw "TypeError"
  end.

End Task.

(* ===================================================================== *)
(** * The calls the handlers make *)
(* ===================================================================== *)

Module Sdk.
Import Supabase Task.

(** [await createClient()]: builds the client object bound to the
    request's cookie jar. *)
Definition createClient : Task unit := mret tt.

(** [createAdminClient()]: the client with elevated write privileges. *)
Definition createAdminClient : Task unit := mret tt.

(** The options the client's cookie callback writes a cookie with.  The
    callback is part of lib/supabase/server.ts, which is not among the
    sources; DEPLOY_NOTES.md documents its options as
    [{...options, secure: isProduction, sameSite: 'lax', path: '/'}]. *)
Definition callback_options (isProduction : bool) (o : Http.CookieOptions)
    : Http.CookieOptions :=
  {| Http.path := Some "/";
     Http.domain := Http.domain o;
     Http.secure := Some isProduction;
     Http.httpOnly := Http.httpOnly o;
     Http.sameSite := Some Http.Lax;
     Http.maxAge := Http.maxAge o |}.

(** The cookie callback of the client: [cookieStore.set] for each cookie
    the library hands over, in order. *)
Definition write_cookies (isProduction : bool)
    (cs : list (string * Http.Cookie)) (jar : gmap string Http.Cookie)
    : gmap string Http.Cookie :=
  fold_left
    (λ j c,
       <[fst c := {| Http.cookie_value := Http.cookie_value (snd c);
                     Http.cookie_options :=
                       callback_options isProduction
                         (Http.cookie_options (snd c)) |}]> j)
    cs jar.

(** Storing a freshly issued session: the client keeps it and writes its
    cookies into the request's jar through the cookie callback. *)
Definition store_session (r : AuthResponse) (w : World) : World :=
  match error r, data_session r with
  | None, Some s =>
      set_cookie_jar
        (write_cookies (String.eqb (node_env w) "production")
           (written_cookies r) (cookie_jar w))
        (set_session (Some s) w)
  | _, _ => w
  end.

(** [await supabase.auth.signInWithPassword({ email, password })] *)
Definition signInWithPassword (email password : Js.value)
    : Task AuthResponse := λ w,
  let r := provider_password w email password in
  (Returned r, store_session r (log_call (SignInWithPassword email password) w)).

(** [await supabase.auth.exchangeCodeForSession(code)] *)
Definition exchangeCodeForSession (code : string) : Task AuthResponse := λ w,
  let r := provider_exchange w code in
  (Returned r, store_session r (log_call (ExchangeCodeForSession code) w)).

(** [await supabase.auth.signOut()] *)
Definition signOut : Task unit := λ w,
  (Returned tt, set_session None (log_call SignOut w)).

(** [await supabase.from("profiles").select(...).eq("user_id", uid)
    .maybeSingle()], the [data] of the result: the row or [null]. *)
Definition select_profile (uid : string) : Task (option Profile) := λ w,
  (Returned (profiles w !! uid), log_call (SelectProfile uid) w).

(** [await adminClient.from("profiles").insert(row)], the [error] of the
    result.  [user_id] is unique in the table; the store may also refuse a
    row for reasons of its own. *)
Definition insert_profile (row : NewProfile) : Task (option string) := λ w,
  let w1 := log_call (InsertProfile row) w in
  match profiles w !! new_user_id row with
  | Some _ => (Returned (Some "duplicate key value"), w1)
  | None =>
      match store_refuses w row with
      | Some e => (Returned (Some e), w1)
      | None =>
          (Returned None,
           set_profiles (<[new_user_id row := stored row]> (profiles w)) w1)
      end
  end.

(** [new Date().toISOString()] *)
Definition date_now : Task Timestamp := λ w, (Returned (now w), w).

(** [(await cookies()).getAll()] *)
Definition cookies_getAll : Task (list (string * Http.Cookie)) := λ w,
  (Returned (map_to_list (cookie_jar w)), w).

(** [process.env.NODE_ENV] *)
Definition process_env_NODE_ENV : Task string := λ w, (Returned (node_env w), w).

(** [await request.json()] *)
Definition request_json (request : Http.Request) : Task Js.value :=
  match Http.json_body request with
  | Some v => mret v
  | None => throw "SyntaxError"
  end.

End Sdk.

(* ===================================================================== *)
(** * app/auth/callback/route.ts *)
(* ===================================================================== *)

Module OAuthCallback.
Import Supabase Task Sdk.

(** The shape of every error redirect of the handler:
    [NextResponse.redirect(`${origin}<page>?error=<code>&message=${
    encodeURIComponent(<message>)}`)]. *)
Definition error_redirect (origin page code message : string) : Http.Response :=
  Http.redirect (origin +:+ page +:+ "?error=" +:+ code +:+ "&message="
                 +:+ Js.encodeURIComponent message).

Definition GET (request : Http.Request) : Task Http.Response :=
  try_catch
    (let code := Http.searchParams_get "code" (Http.searchParams request) in
     let origin := Http.origin request in
     let isRegisterFlow :=
       bool_decide (Http.searchParams_get "flow" (Http.searchParams request)
                    = Some "register") in
     if negb (Js.truthy (Js.of_string code)) then
       mret (error_redirect origin "/login" "oauth_failed"
               "OAuth callback tidak valid")
     else
       createClient;;
       x ← exchangeCodeForSession (default "" code);
       if bool_decide (is_Some (error x)) then
         mret (error_redirect origin "/login" "oauth_exchange_failed"
                 "Gagal memproses login Google")
       else
         match data_user x with
         | None =>
             mret (error_redirect origin "/login" "no_user"
                     "User tidak ditemukan")
         | Some user =>
             profile ← select_profile (id user);
             if negb isRegisterFlow then
               if from_option is_admin false profile then
                 signOut;;
                 mret (error_redirect origin "/login" "admin_oauth_blocked"
                         "Admin hanya dapat login menggunakan email dan password. Google OAuth tidak diizinkan untuk admin.")
               else if negb (bool_decide (is_Some profile)) then
                 signOut;;
                 mret (error_redirect origin "/login" "account_not_found"
                         "Akun Google Anda belum terdaftar. Silakan lakukan registrasi terlebih dahulu.")
               else
                 mret (Http.redirect (origin +:+ "/cari-jodoh"))
             else if isRegisterFlow then
               if from_option (λ p, bool_decide (is_Some (registered_at p)))
                    false profile then
                 mret (Http.redirect (origin +:+ "/cari-jodoh"))
               else if from_option
                         (λ p, negb (bool_decide (is_Some (registered_at p))))
                         false profile then
                 mret (Http.redirect (origin +:+ "/onboarding/verifikasi"))
               else
                 createAdminClient;;
                 created ← date_now;
                 updated ← date_now;
                 insertError ← insert_profile
                   {| new_user_id := id user;
                      new_email := email user;
                      new_full_name :=
                        Js.or (Js.or (Js.get_opt (user_metadata user) "full_name")
                                     (Js.get_opt (user_metadata user) "name"))
                              (Js.Str "User");
                      new_registered_at := None;
                      new_created_at := created;
                      new_updated_at := updated |};
                 if bool_decide (is_Some insertError) then
                   signOut;;
                   mret (error_redirect origin "/register"
                           "profile_creation_failed"
                           "Gagal membuat profil. Silakan coba lagi.")
                 else
                   mret (Http.redirect (origin +:+ "/onboarding/verifikasi"))
             else
               mret (Http.redirect (origin +:+ "/login"))
         end)
    (λ _,
       let origin := Js.split_head (Http.url request) "/auth/callback" in
       mret (error_redirect origin "/login" "unexpected_error"
               "Terjadi kesalahan saat memproses login. Silakan coba lagi.")).

End OAuthCallback.

(* ===================================================================== *)
(** * app/api/auth/login/route.ts, relying on the framework's cookies *)
(* ===================================================================== *)

Module LoginRoute.
Import Supabase Task Sdk.

Definition failure (message : string) : Js.value :=
  Js.Object [("success", Js.Boolean false); ("error", Js.Str message)].

Definition success (user : User) : Js.value :=
  Js.Object [("success", Js.Boolean true);
             ("user", Js.Object [("id", Js.Str (id user));
                                 ("email", Js.of_string (email user))])].

Definition POST (request : Http.Request) : Task Http.Response :=
  try_catch
    (parsed ← request_json request;
     email ← non_null (Js.get parsed "email");
     password ← non_null (Js.get parsed "password");
     if negb (Js.truthy email) || negb (Js.truthy password) then
       mret (Http.json (failure "Email dan password harus diisi") 400)
     else
       createClient;;
       r ← signInWithPassword email password;
       match error r with
       | Some message => mret (Http.json (failure message) 401)
       | None =>
           match data_session r with
           | None => mret (Http.json (failure "Gagal membuat session") 401)
           | Some _ =>
               user ← non_null (data_user r);
               _ ← select_profile (id user);
               mret (Http.json (success user) 200)
           end
       end)
    (λ _, mret (Http.json (failure "Terjadi kesalahan server") 500)).

End LoginRoute.

(* ===================================================================== *)
(** * The login route that re-sets the provider's cookies by hand *)
(* ===================================================================== *)

Module LoginRouteManual.
Import Supabase Task Sdk.

Definition failure := LoginRoute.failure.
Definition success := LoginRoute.success.

(** The [cookieOptions] literal of the handler. *)
Definition cookieOptions (isProduction : bool) : Http.CookieOptions :=
  {| Http.path := Some "/";
     Http.domain := None;
     Http.secure := Some isProduction;
     Http.httpOnly := Some false;
     Http.sameSite := Some Http.Lax;
     Http.maxAge := Some 34560000%Z |}.

(** [allCookies.filter(c => c.name.startsWith('sb-'))] *)
Definition supabaseCookies (allCookies : list (string * Http.Cookie))
    : list (string * Http.Cookie) :=
  List.filter (λ c, Js.startsWith (fst c) "sb-") allCookies.

(** [supabaseCookies.forEach(cookie =>
       response.cookies.set(cookie.name, cookie.value, cookieOptions))] *)
Definition set_all (isProduction : bool) (cs : list (string * Http.Cookie))
    (response : Http.Response) : Http.Response :=
  fold_left
    (λ resp cookie,
       Http.cookies_set (fst cookie) (Http.cookie_value (snd cookie))
         (cookieOptions isProduction) resp)
    cs response.

Definition POST (request : Http.Request) : Task Http.Response :=
  try_catch
    (parsed ← request_json request;
     email ← non_null (Js.get parsed "email");
     password ← non_null (Js.get parsed "password");
     if negb (Js.truthy email) || negb (Js.truthy password) then
       mret (Http.json (failure "Email dan password harus diisi") 400)
     else
       createClient;;
       r ← signInWithPassword email password;
       match error r with
       | Some message => mret (Http.json (failure message) 401)
       | None =>
           match data_session r with
           | None => mret (Http.json (failure "Gagal membuat session") 401)
           | Some _ =>
               user ← non_null (data_user r);
               _ ← select_profile (id user);
               allCookies ← cookies_getAll;
               let response := Http.json (success user) 200 in
               env ← process_env_NODE_ENV;
               let isProduction := String.eqb env "production" in
               mret (set_all isProduction (supabaseCookies allCookies) response)
           end
       end)
    (λ _, mret (Http.json (failure "Terjadi kesalahan server") 500)).

End LoginRouteManual.

(* ===================================================================== *)
(** * features/auth/components/onboarding-summary.tsx *)
(* ===================================================================== *)

Module Onboarding.
Import Supabase Task Sdk.

(** [{ success: boolean, error?: string }] *)
Record ActionResult : Type := {
  success : bool;
  action_error : option string
}.

(** Modelled from the spec: [completeOnboarding] is a server action of
    features/auth/server/actions, which is not among the sources; only its
    call in [handleComplete] is.  Following the spec, it reads the current
    session, moves that user's profile from incomplete to complete by
    setting [registered_at] to the current time, and is guarded: on a
    profile whose [registered_at] is already set it succeeds without
    writing.  Without a session or a profile row it reports failure and
    writes nothing. *)
Definition completeOnboarding (arg : Js.value) : Task ActionResult := λ w,
  match session w with
  | None =>
      (Returned {| success := false; action_error := Some "Not authenticated" |}, w)
  | Some s =>
      let uid := id (session_user s) in
      match profiles w !! uid with
      | None =>
          (Returned {| success := false; action_error := Some "Profile not found" |}, w)
      | Some p =>
          match registered_at p with
          | Some _ => (Returned {| success := true; action_error := None |}, w)
          | None =>
              (Returned {| success := true; action_error := None |},
               set_profiles
                 (<[uid := {| user_id := user_id p;
                              profile_email := profile_email p;
                              full_name := full_name p;
                              is_admin := is_admin p;
                              registered_at := Some (now w);
                              created_at := created_at p;
                              updated_at := updated_at p |}]> (profiles w)) w)
          end
      end
  end.

(** The part of the browser page the component touches. *)
Record Page : Type := {
  isLoading : bool;
  location_href : string;
  console_errors : list (option string)
}.

Definition setIsLoading (b : bool) (pg : Page) : Page :=
  {| isLoading := b; location_href := location_href pg;
     console_errors := console_errors pg |}.

Definition navigate (href : string) (pg : Page) : Page :=
  {| isLoading := isLoading pg; location_href := href;
     console_errors := console_errors pg |}.

Definition console_error (e : option string) (pg : Page) : Page :=
  {| isLoading := isLoading pg; location_href := location_href pg;
     console_errors := console_errors pg ++ [e] |}.

(** [handleComplete], with the imported server action as a parameter:
    [action] is whatever [completeOnboarding] of
    features/auth/server/actions does, and it may reject.  The page is
    threaded explicitly, the world through the monad; the three cases are
    the [if], the [else] and the [catch] of the source, each followed by
    the [finally]. *)
Definition handleComplete_with (action : Js.value → Task ActionResult)
    (pg : Page) : Task Page := λ w,
  let pg1 := setIsLoading true pg in
  match action Js.Null w with
  | (Returned result, w') =>
      if success result then
        (Returned (setIsLoading false (navigate "/cari-jodoh" pg1)), w')
      else
        (Returned (setIsLoading false (console_error (action_error result) pg1)), w')
  | (Thrown e, w') =>
      (Returned (setIsLoading false (console_error (Some e) pg1)), w')
  end.

(** [handleComplete] on the action as the spec describes it. *)
Definition handleComplete (pg : Page) : Task Page :=
  handleComplete_with completeOnboarding pg.

End Onboarding.

(* ===================================================================== *)
(** * Vocabulary of the statements, and sample data *)
(* ===================================================================== *)

Module Spec.
Import Supabase Task Sdk.

(** A property of a parsed body is empty or missing: reading it yields
    nothing, or the empty string. *)
Definition empty_or_missing (parsed : Js.value) (k : string) : Prop :=
  Js.get_opt parsed k = Js.Undefined ∨ Js.get_opt parsed k = Js.Str "".

(** The provider answered a sign-in or an exchange with this user and
    this session, and no error. *)
Definition succeeded (r : AuthResponse) (u : User) (s : Session) : Prop :=
  error r = None ∧ data_user r = Some u ∧ data_session r = Some s.

(** The query string carries this non-empty authorization code. *)
Definition has_code (request : Http.Request) (code : string) : Prop :=
  Http.searchParams_get "code" (Http.searchParams request) = Some code
  ∧ code ≠ "".

Definition register_flow (request : Http.Request) : Prop :=
  Http.searchParams_get "flow" (Http.searchParams request) = Some "register".

(** The name a new profile gets: the provider metadata's [full_name] if
    it has one, else its [name], else the literal [User]. *)
Definition display_name (u : User) : Js.value :=
  let full := Js.get_opt (user_metadata u) "full_name" in
  let short := Js.get_opt (user_metadata u) "name" in
  if Js.truthy full then full
  else if Js.truthy short then short
  else Js.Str "User".

(** The row a first registration inserts at time [t]. *)
Definition placeholder_row (u : User) (t : Timestamp) : NewProfile :=
  {| new_user_id := id u; new_email := email u;
     new_full_name := display_name u; new_registered_at := None;
     new_created_at := t; new_updated_at := t |}.

(** The world in which the callback continues once the provider has
    exchanged [code] and the profile of [u] has been looked up. *)
Definition after_lookup (w : World) (code : string) (u : User) : World :=
  log_call (SelectProfile (id u))
    (Sdk.store_session (provider_exchange w code)
       (log_call (ExchangeCodeForSession code) w)).

End Spec.

Module Sample.
Import Supabase Task Sdk.

Definition alice : User :=
  {| id := "u-alice"; email := Some "alice@example.com";
     user_metadata := Js.Object [("name", Js.Str "Alice")] |}.

(** A session cookie as a provider configured for one-hour, script-hidden
    cookies hands it to the cookie callback. *)
Definition provider_cookie : Http.Cookie :=
  {| Http.cookie_value := "base64-session";
     Http.cookie_options :=
       {| Http.path := Some "/auth"; Http.domain := None;
          Http.secure := Some false; Http.httpOnly := Some true;
          Http.sameSite := Some Http.Strict; Http.maxAge := Some 3600%Z |} |}.

Definition theme_cookie : Http.Cookie :=
  {| Http.cookie_value := "dark";
     Http.cookie_options :=
       {| Http.path := None; Http.domain := None; Http.secure := None;
          Http.httpOnly := None; Http.sameSite := None;
          Http.maxAge := None |} |}.

Definition session_of (u : User) : Session :=
  {| access_token := "at-1"; refresh_token := "rt-1"; expires_in := 3600;
     expires_at := 1700003600; session_user := u |}.

Definition granted (u : User) : AuthResponse :=
  {| data_user := Some u;
     data_session := Some (session_of u);
     error := None;
     written_cookies := [("sb-proj-auth-token", provider_cookie)] |}.

Definition rejected : AuthResponse :=
  {| data_user := None; data_session := None;
     error := Some "Invalid login credentials"; written_cookies := [] |}.

Definition password_oracle (e p : Js.value) : AuthResponse :=
  match e, p with
  | Js.Str e', Js.Str p' =>
      if String.eqb e' "alice@example.com" && String.eqb p' "secret"
      then granted alice else rejected
  | _, _ => rejected
  end.

Definition exchange_oracle (u : User) (code : string) : AuthResponse :=
  if String.eqb code "good-code" then granted u else rejected.

(** A production deployment where the code [good-code] belongs to [u], with
    the given profile table and a store that refuses inserts with the given
    error, if any. *)
Definition world_for (u : User) (table : gmap string Profile)
    (refusal : option string) : World :=
  {| node_env := "production";
     provider_password := password_oracle;
     provider_exchange := exchange_oracle u;
     store_refuses := λ _, refusal;
     session := None;
     profiles := table;
     cookie_jar := {["theme" := theme_cookie]};
     now := 1700000000000%Z;
     calls := [] |}.

(** Alice has no profile row yet. *)
Definition world : World := world_for alice ∅ None.

(** A user whose provider metadata calls them an administrator. *)
Definition root : User :=
  {| id := "u-root"; email := Some "root@example.com";
     user_metadata := Js.Object [("is_admin", Js.Boolean true);
                                 ("role", Js.Str "admin")] |}.

Definition profile_of (u : User) (admin : bool) (since : option Timestamp)
    : Profile :=
  {| user_id := id u; profile_email := email u;
     full_name := Js.Str "Somebody"; is_admin := admin;
     registered_at := since; created_at := 1600000000000%Z;
     updated_at := 1600000000000%Z |}.

Definition login_request (parsed : option Js.value) : Http.Request :=
  {| Http.url := "https://app.example/api/auth/login";
     Http.origin := "https://app.example";
     Http.searchParams := [];
     Http.json_body := parsed |}.

Definition credentials : Js.value :=
  Js.Object [("email", Js.Str "alice@example.com");
             ("password", Js.Str "secret")].

Definition callback_request (flow : list (string * string)) : Http.Request :=
  {| Http.url := "https://app.example/auth/callback?code=good-code";
     Http.origin := "https://app.example";
     Http.searchParams := ("code", "good-code") :: flow;
     Http.json_body := None |}.

Definition summary_page : Onboarding.Page :=
  {| Onboarding.isLoading := false;
     Onboarding.location_href := "/onboarding/selesai";
     Onboarding.console_errors := [] |}.

End Sample.

(* ===================================================================== *)
(** * The summary component: status effect and rendering *)
(* ===================================================================== *)

Module Summary.
Import Task.

(** The [flags] state of the component: each is ["1"], ["0"] or [""]. *)
Record Flags : Type := {
  fiveQ : string;
  cv : string
}.

(** [useState({ fiveQ: "", cv: "" })] *)
Definition initial : Flags := {| fiveQ := ""; cv := "" |}.

(** What [getOnboardingStatus()] resolves to. *)
Record Status : Type := {
  status_fiveQ : bool;
  status_cvMinimal : bool
}.

(** The body of the [useEffect]: [status] is the outcome of awaiting
    [getOnboardingStatus()], [mounted] the value of the flag once the
    await is over.  The server action itself is not among the sources and
    enters as its outcome. *)
Definition load_status (mounted : bool) (status : Outcome Status)
    (flags : Flags) : Flags :=
  match status with
  | Returned s =>
      let fiveQ := if status_fiveQ s then "1" else "0" in
      let cv := if status_cvMinimal s then "1" else "0" in
      if mounted then {| fiveQ := fiveQ; cv := cv |} else flags
  | Thrown _ =>
      if mounted then {| fiveQ := ""; cv := "" |} else flags
  end.

(** The parts of the rendered tree that depend on the state. *)
Record View : Type := {
  fiveQ_class : string;
  fiveQ_mark : string;
  fiveQ_text : string;
  cv_class : string;
  cv_mark : string;
  cv_text : string;
  recommendation : bool;
  button_disabled : bool;
  button_label : string
}.

(** The [return (...)] of the component. *)
Definition render (flags : Flags) (isLoading : bool) : View :=
  {| fiveQ_class :=
       if String.eqb (fiveQ flags) "1"
       then "bg-success text-success-foreground"
       else "bg-destructive text-destructive-foreground";
     fiveQ_mark := if String.eqb (fiveQ flags) "1" then "✓" else "✗";
     fiveQ_text :=
       if String.eqb (fiveQ flags) "1" then "Terisi & Komitmen"
       else "Belum terisi atau tidak memenuhi syarat";
     cv_class :=
       if String.eqb (cv flags) "1"
       then "bg-success text-success-foreground"
       else if String.eqb (cv flags) "0"
            then "bg-warning text-warning-foreground"
            else "bg-muted-foreground text-background";
     cv_mark :=
       if String.eqb (cv flags) "1" then "✓"
       else if String.eqb (cv flags) "0" then "⚠" else "-";
     cv_text :=
       if String.eqb (cv flags) "1"
       then "CV Utama berhasil diisi. Rekomendasi: lengkapi detail CV di halaman CV Saya."
       else if String.eqb (cv flags) "0"
            then "Anda belum mengisi CV Utama. Silakan isi di halaman CV Saya."
            else "Status tidak diketahui";
     recommendation := String.eqb (cv flags) "0";
     button_disabled := isLoading;
     button_label := if isLoading then "Menyelesaikan..." else "Selesai" |}.

End Summary.

(* ===================================================================== *)
(** * More vocabulary and scenarios *)
(* ===================================================================== *)

Module Protocol.
Import Supabase.

(** The sequences of calls one run of the OAuth callback may make. *)
Definition callback_calls (made : list Call) : Prop :=
  match made with
  | [] => True
  | [ExchangeCodeForSession _] => True
  | [ExchangeCodeForSession _; SelectProfile _] => True
  | [ExchangeCodeForSession _; SelectProfile _; SignOut] => True
  | [ExchangeCodeForSession _; SelectProfile uid; InsertProfile row] =>
      new_user_id row = uid
  | [ExchangeCodeForSession _; SelectProfile uid; InsertProfile row; SignOut] =>
      new_user_id row = uid
  | _ => False
  end.

(** The sequences of calls one run of a login route may make. *)
Definition login_calls (made : list Call) : Prop :=
  match made with
  | [] => True
  | [SignInWithPassword _ _] => True
  | [SignInWithPassword _ _; SelectProfile _] => True
  | _ => False
  end.

(** The cookie the manual login route puts on the response for a cookie
    of the jar. *)
Definition reset_cookie (isProduction : bool) (c : Http.Cookie) : Http.Cookie :=
  {| Http.cookie_value := Http.cookie_value c;
     Http.cookie_options := LoginRouteManual.cookieOptions isProduction |}.

(** The decision table of the login routes: what a run answers and the
    world it leaves, by the parsed body and the provider's answer.
    [finish] is what the route does to the 200 answer before returning it. *)
Definition login_table (finish : World → Http.Response → Http.Response)
    (request : Http.Request) (w : World)
    : Task.Outcome Http.Response * World :=
  let server_error :=
    Http.json (LoginRoute.failure "Terjadi kesalahan server") 500 in
  match Http.json_body request with
  | None => (Task.Returned server_error, w)
  | Some parsed =>
      match Js.get parsed "email", Js.get parsed "password" with
      | Some e, Some p =>
          if negb (Js.truthy e) || negb (Js.truthy p) then
            (Task.Returned
               (Http.json (LoginRoute.failure "Email dan password harus diisi")
                  400), w)
          else
            let r := provider_password w e p in
            let w1 := Sdk.store_session r
                        (log_call (SignInWithPassword e p) w) in
            match error r, data_session r, data_user r with
            | Some message, _, _ =>
                (Task.Returned (Http.json (LoginRoute.failure message) 401), w1)
            | None, None, _ =>
                (Task.Returned
                   (Http.json (LoginRoute.failure "Gagal membuat session") 401),
                 w1)
            | None, Some _, None => (Task.Returned server_error, w1)
            | None, Some _, Some u =>
                let w2 := log_call (SelectProfile (id u)) w1 in
                (Task.Returned
                   (finish w2 (Http.json (LoginRoute.success u) 200)), w2)
            end
      | _, _ => (Task.Returned server_error, w)
      end
  end.

(** What the manual route does to its 200 answer. *)
Definition manual_finish (w : World) (response : Http.Response)
    : Http.Response :=
  LoginRouteManual.set_all (String.eqb (node_env w) "production")
    (LoginRouteManual.supabaseCookies (map_to_list (cookie_jar w))) response.

(** [sep] occurs somewhere in [s]. *)
Fixpoint contains (s sep : string) : bool :=
  String.prefix sep s ||
  match s with
  | EmptyString => false
  | String _ rest => contains rest sep
  end.

(** The targets the OAuth callback redirects to: the seven error pages,
    the landing page and the onboarding verification step.  The
    [unexpected_error] target is built on the origin the [catch] recovers
    from the URL, all others on the origin of the parsed URL. *)
Definition callback_targets (request : Http.Request) : list string :=
  let origin := Http.origin request in
  [ origin +:+ "/login" +:+ "?error=" +:+ "oauth_failed" +:+ "&message="
      +:+ Js.encodeURIComponent "OAuth callback tidak valid";
    origin +:+ "/login" +:+ "?error=" +:+ "oauth_exchange_failed"
      +:+ "&message=" +:+ Js.encodeURIComponent "Gagal memproses login Google";
    origin +:+ "/login" +:+ "?error=" +:+ "no_user" +:+ "&message="
      +:+ Js.encodeURIComponent "User tidak ditemukan";
    origin +:+ "/login" +:+ "?error=" +:+ "admin_oauth_blocked"
      +:+ "&message="
      +:+ Js.encodeURIComponent
            "Admin hanya dapat login menggunakan email dan password. Google OAuth tidak diizinkan untuk admin.";
    origin +:+ "/login" +:+ "?error=" +:+ "account_not_found"
      +:+ "&message="
      +:+ Js.encodeURIComponent
            "Akun Google Anda belum terdaftar. Silakan lakukan registrasi terlebih dahulu.";
    origin +:+ "/cari-jodoh";
    origin +:+ "/onboarding/verifikasi";
    origin +:+ "/register" +:+ "?error=" +:+ "profile_creation_failed"
      +:+ "&message="
      +:+ Js.encodeURIComponent "Gagal membuat profil. Silakan coba lagi.";
    Js.split_head (Http.url request) "/auth/callback"
      +:+ "/login" +:+ "?error=" +:+ "unexpected_error" +:+ "&message="
      +:+ Js.encodeURIComponent
            "Terjadi kesalahan saat memproses login. Silakan coba lagi." ].

End Protocol.

(* ===================================================================== *)
(** * The OAuth callback over collaborators that may reject *)
(* ===================================================================== *)

Module Open.
Import Supabase Task.

(** The awaited calls of the callback, each as whatever it does: it may
    change the world in any way, resolve to any result, or reject. *)
Record Client : Type := {
  createClient : Task unit;
  exchangeCodeForSession : string → Task AuthResponse;
  select_profile : string → Task (option Profile);
  signOut : Task unit;
  createAdminClient : Task unit;
  insert_profile : NewProfile → Task (option string)
}.

(** The client whose calls always resolve, as [OAuthCallback.GET] uses
    them. *)
Definition resolving : Client :=
  {| createClient := Sdk.createClient;
     exchangeCodeForSession := Sdk.exchangeCodeForSession;
     select_profile := Sdk.select_profile;
     signOut := Sdk.signOut;
     createAdminClient := Sdk.createAdminClient;
     insert_profile := Sdk.insert_profile |}.

(** The handler of app/auth/callback/route.ts, line by line as
    [OAuthCallback.GET], over an arbitrary client. *)
Definition GET (client : Client) (request : Http.Request)
    : Task Http.Response :=
  try_catch
    (let code := Http.searchParams_get "code" (Http.searchParams request) in
     let origin := Http.origin request in
     let isRegisterFlow :=
       bool_decide (Http.searchParams_get "flow" (Http.searchParams request)
                    = Some "register") in
     if negb (Js.truthy (Js.of_string code)) then
       mret (OAuthCallback.error_redirect origin "/login" "oauth_failed"
               "OAuth callback tidak valid")
     else
       createClient client;;
       x ← exchangeCodeForSession client (default "" code);
       if bool_decide (is_Some (error x)) then
         mret (OAuthCallback.error_redirect origin "/login"
                 "oauth_exchange_failed" "Gagal memproses login Google")
       else
         match data_user x with
         | None =>
             mret (OAuthCallback.error_redirect origin "/login" "no_user"
                     "User tidak ditemukan")
         | Some user =>
             profile ← select_profile client (id user);
             if negb isRegisterFlow then
               if from_option is_admin false profile then
                 signOut client;;
                 mret (OAuthCallback.error_redirect origin "/login"
                         "admin_oauth_blocked"
                         "Admin hanya dapat login menggunakan email dan password. Google OAuth tidak diizinkan untuk admin.")
               else if negb (bool_decide (is_Some profile)) then
                 signOut client;;
                 mret (OAuthCallback.error_redirect origin "/login"
                         "account_not_found"
                         "Akun Google Anda belum terdaftar. Silakan lakukan registrasi terlebih dahulu.")
               else
                 mret (Http.redirect (origin +:+ "/cari-jodoh"))
             else if isRegisterFlow then
               if from_option (λ p, bool_decide (is_Some (registered_at p)))
                    false profile then
                 mret (Http.redirect (origin +:+ "/cari-jodoh"))
               else if from_option
                         (λ p, negb (bool_decide (is_Some (registered_at p))))
                         false profile then
                 mret (Http.redirect (origin +:+ "/onboarding/verifikasi"))
               else
                 createAdminClient client;;
                 created ← Sdk.date_now;
                 updated ← Sdk.date_now;
                 insertError ← insert_profile client
                   {| new_user_id := id user;
                      new_email := email user;
                      new_full_name :=
                        Js.or (Js.or (Js.get_opt (user_metadata user) "full_name")
                                     (Js.get_opt (user_metadata user) "name"))
                              (Js.Str "User");
                      new_registered_at := None;
                      new_created_at := created;
                      new_updated_at := updated |};
                 if bool_decide (is_Some insertError) then
                   signOut client;;
                   mret (OAuthCallback.error_redirect origin "/register"
                           "profile_creation_failed"
                           "Gagal membuat profil. Silakan coba lagi.")
                 else
                   mret (Http.redirect (origin +:+ "/onboarding/verifikasi"))
             else
               mret (Http.redirect (origin +:+ "/login"))
         end)
    (λ _,
       let origin := Js.split_head (Http.url request) "/auth/callback" in
       mret (OAuthCallback.error_redirect origin "/login" "unexpected_error"
               "Terjadi kesalahan saat memproses login. Silakan coba lagi.")).

(** A client whose code exchange rejects, as on a network failure. *)
Definition unreachable_provider : Client :=
  {| createClient := Sdk.createClient;
     exchangeCodeForSession := λ _, throw "fetch failed";
     select_profile := Sdk.select_profile;
     signOut := Sdk.signOut;
     createAdminClient := Sdk.createAdminClient;
     insert_profile := Sdk.insert_profile |}.

(** A server action that rejects. *)
Definition failing_action (arg : Js.value) : Task Onboarding.ActionResult :=
  throw "fetch failed".

End Open.

Module Scenario.
Import Supabase.

(** A deployment whose provider answers every sign-in and every exchange
    with [r]. *)
Definition answering (r : AuthResponse) (table : gmap string Profile) : World :=
  {| node_env := "development";
     provider_password := λ _ _, r;
     provider_exchange := λ _, r;
     store_refuses := λ _, None;
     session := None;
     profiles := table;
     cookie_jar := {["theme" := Sample.theme_cookie]};
     now := 1700000000000%Z;
     calls := [] |}.

(** No error, but neither user nor session. *)
Definition empty_answer : AuthResponse :=
  {| data_user := None; data_session := None; error := None;
     written_cookies := [] |}.

Definition callback_without_code : Http.Request :=
  {| Http.url := "https://app.example/auth/callback?code=";
     Http.origin := "https://app.example";
     Http.searchParams := [("code", "")];
     Http.json_body := None |}.

End Scenario.

(* ===================================================================== *)
(** * Facts about the login routes *)
(* ===================================================================== *)

Import Supabase Task Sdk.

(** Unfolds the monadic plumbing of a handler run. *)
Ltac run :=
  repeat (cbn [mbind mret task_bind task_ret try_catch throw non_null
               request_json createClient createAdminClient]
          || unfold mbind, mret, task_bind, task_ret, try_catch, throw,
                    non_null, request_json, createClient, createAdminClient).



Lemma get_opt_of_get (parsed v : Js.value) (k : string) :
  Js.get parsed k = Some v → Js.get_opt parsed k = v.
Proof. unfold Js.get_opt. intros ->. reflexivity. Qed.

Lemma empty_or_missing_falsy (parsed v : Js.value) (k : string) :
  Js.get parsed k = Some v → Spec.empty_or_missing parsed k →
  Js.truthy v = false.
Proof.
  intros Hget [H | H]; rewrite (get_opt_of_get _ _ _ Hget) in H;
    subst v; reflexivity.
Qed.

Lemma get_is_Some (parsed : Js.value) (k : string) :
  parsed ≠ Js.Null → parsed ≠ Js.Undefined → ∃ v, Js.get parsed k = Some v.
Proof. intros Hn Hu. destruct parsed; simpl; eauto; congruence. Qed.

(** C6, as amended.  When the parsed body is a JSON value other than
    [null] and its email or its password is empty or missing, both variants
    of the login route answer 400 with [{success: false, error}] and leave
    the world as it was: the call log is unchanged, so the provider's
    password sign-in was not called. *)
Theorem login_empty_field_is_invalid_input
    (request : Http.Request) (w : World) (parsed : Js.value) :
  Http.json_body request = Some parsed →
  parsed ≠ Js.Null → parsed ≠ Js.Undefined →
  Spec.empty_or_missing parsed "email"
  ∨ Spec.empty_or_missing parsed "password" →
  let answer :=
    Http.json (LoginRoute.failure "Email dan password harus diisi") 400 in
  LoginRoute.POST request w = (Returned answer, w)
  ∧ LoginRouteManual.POST request w = (Returned answer, w)
  ∧ Http.status answer = 400%Z
  ∧ Http.body answer
    = Some (Js.Object [("success", Js.Boolean false);
                       ("error", Js.Str "Email dan password harus diisi")]).
Proof.
  intros Hbody Hn Hu Hempty answer.
  destruct (get_is_Some parsed "email" Hn Hu) as [e He].
  destruct (get_is_Some parsed "password" Hn Hu) as [p Hp].
  assert (Hfalsy : negb (Js.truthy e) || negb (Js.truthy p) = true).
  { destruct Hempty as [H | H].
    - rewrite (empty_or_missing_falsy _ _ _ He H). reflexivity.
    - rewrite (empty_or_missing_falsy _ _ _ Hp H). apply orb_true_r. }
  unfold LoginRoute.POST, LoginRouteManual.POST.
  run. rewrite Hbody. run. rewrite He. run. rewrite Hp. run.
  rewrite Hfalsy. repeat split; reflexivity.
Qed.

Lemma login_empty_field_is_invalid_input_witness :
  LoginRoute.POST
    (Sample.login_request (Some (Js.Object [("email", Js.Str "")])))
    Sample.world
  = (Returned
       (Http.json (LoginRoute.failure "Email dan password harus diisi") 400),
     Sample.world).
Proof.
  apply (login_empty_field_is_invalid_input
           (Sample.login_request (Some (Js.Object [("email", Js.Str "")])))
           Sample.world (Js.Object [("email", Js.Str "")])).
  - reflexivity.
  - discriminate.
  - discriminate.
  - left. right. reflexivity.
Defined.

(** C6 as stated fails on the body [null]: it is valid JSON and has no
    email, yet destructuring it raises a [TypeError], which the catch-all
    turns into the 500 answer, in both variants of the route. *)
Lemma login_null_body_counterexample :
  Http.json_body (Sample.login_request (Some Js.Null)) = Some Js.Null
  ∧ Spec.empty_or_missing Js.Null "email"
  ∧ LoginRoute.POST (Sample.login_request (Some Js.Null)) Sample.world
    = (Returned (Http.json (LoginRoute.failure "Terjadi kesalahan server") 500),
       Sample.world)
  ∧ LoginRouteManual.POST (Sample.login_request (Some Js.Null)) Sample.world
    = (Returned (Http.json (LoginRoute.failure "Terjadi kesalahan server") 500),
       Sample.world)
  ∧ Http.status (Http.json (LoginRoute.failure "Terjadi kesalahan server") 500)
    ≠ 400%Z.
Proof.
  split; [reflexivity |]. split; [left; reflexivity |].
  split; [reflexivity |]. split; [reflexivity |].
  simpl. discriminate.
Qed.

Lemma set_all_status_body (b : bool) (cs : list (string * Http.Cookie))
    (response : Http.Response) :
  Http.status (LoginRouteManual.set_all b cs response) = Http.status response
  ∧ Http.body (LoginRouteManual.set_all b cs response) = Http.body response.
Proof.
  revert response. induction cs as [| c cs IH]; intros response.
  - split; reflexivity.
  - unfold LoginRouteManual.set_all in *. simpl.
    destruct (IH (Http.cookies_set (fst c) (Http.cookie_value (snd c))
                    (LoginRouteManual.cookieOptions b) response)) as [Hs Hb].
    rewrite Hs, Hb. split; reflexivity.
Qed.

(** C7.  When the body carries a truthy email and password and the
    provider answers the sign-in with a user and a session and no error
    (the SDK's result type pairs a session with its user), both variants
    of the route answer with status 200 and the body
    [{success: true, user: {id, email}}], built from the user's id and
    email alone: neither the password nor any field of the session enters
    it. *)
Theorem login_success_body
    (request : Http.Request) (w : World) (parsed email password : Js.value)
    (u : User) (s : Session) :
  Http.json_body request = Some parsed →
  Js.get parsed "email" = Some email →
  Js.get parsed "password" = Some password →
  Js.truthy email = true → Js.truthy password = true →
  Spec.succeeded (provider_password w email password) u s →
  let expected :=
    Js.Object [("success", Js.Boolean true);
               ("user", Js.Object [("id", Js.Str (id u));
                                   ("email", Js.of_string (Supabase.email u))])] in
  (∃ w', LoginRoute.POST request w = (Returned (Http.json expected 200), w'))
  ∧ (∃ response w',
       LoginRouteManual.POST request w = (Returned response, w')
       ∧ Http.status response = 200%Z
       ∧ Http.body response = Some expected).
Proof.
  intros Hbody He Hp Hte Htp (Herr & Hu & Hs) expected.
  split.
  - unfold LoginRoute.POST. run. rewrite Hbody. run. rewrite He. run.
    rewrite Hp. run. rewrite Hte, Htp. simpl.
    unfold signInWithPassword. rewrite Herr, Hs, Hu. run.
    eexists. reflexivity.
  - unfold LoginRouteManual.POST. run. rewrite Hbody. run. rewrite He. run.
    rewrite Hp. run. rewrite Hte, Htp. simpl.
    unfold signInWithPassword. rewrite Herr, Hs, Hu. run.
    eexists _, _. split; [reflexivity |].
    apply set_all_status_body.
Qed.

Lemma login_success_body_witness :
  ∃ w', LoginRoute.POST (Sample.login_request (Some Sample.credentials))
          Sample.world
        = (Returned (Http.json (LoginRoute.success Sample.alice) 200), w').
Proof.
  apply (login_success_body
           (Sample.login_request (Some Sample.credentials)) Sample.world
           Sample.credentials (Js.Str "alice@example.com") (Js.Str "secret")
           Sample.alice (Sample.session_of Sample.alice));
    try reflexivity.
  repeat split; reflexivity.
Defined.

(* ===================================================================== *)
(** * Facts about the manual cookie propagation *)
(* ===================================================================== *)

Lemma write_cookies_other (b : bool) (cs : list (string * Http.Cookie))
    (jar : gmap string Http.Cookie) (name : string) :
  (∀ v, ¬ In (name, v) cs) → write_cookies b cs jar !! name = jar !! name.
Proof.
  revert jar. induction cs as [| [k v] cs IH]; intros jar Hfresh.
  - reflexivity.
  - unfold write_cookies in *. simpl. rewrite IH.
    + apply lookup_insert_ne. intros ->. apply (Hfresh v). left. reflexivity.
    + intros v' Hin. apply (Hfresh v'). right. exact Hin.
Qed.

Lemma set_all_cons (b : bool) (c : string * Http.Cookie)
    (cs : list (string * Http.Cookie)) (response : Http.Response) :
  LoginRouteManual.set_all b (c :: cs) response
  = LoginRouteManual.set_all b cs
      (Http.cookies_set (fst c) (Http.cookie_value (snd c))
         (LoginRouteManual.cookieOptions b) response).
Proof. reflexivity. Qed.

(** A cookie found on the response after the loop was either there before
    or was set by the loop, from a cookie of the list and with the
    handler's options. *)
Lemma set_all_lookup_Some (b : bool) (cs : list (string * Http.Cookie))
    (response : Http.Response) (name : string) (rc : Http.Cookie) :
  Http.cookies (LoginRouteManual.set_all b cs response) !! name = Some rc →
  Http.cookies response !! name = Some rc
  ∨ ∃ c, In (name, c) cs
         ∧ rc = {| Http.cookie_value := Http.cookie_value c;
                   Http.cookie_options := LoginRouteManual.cookieOptions b |}.
Proof.
  revert response. induction cs as [| [k v] cs IH]; intros response Hlook.
  - left. exact Hlook.
  - rewrite set_all_cons in Hlook. apply IH in Hlook.
    destruct Hlook as [Hlook | (c & Hin & ->)].
    + simpl in Hlook. destruct (decide (k = name)) as [-> | Hne].
      * rewrite lookup_insert_eq in Hlook. inversion Hlook; subst.
        right. exists v. split; [left; reflexivity | reflexivity].
      * rewrite lookup_insert_ne in Hlook by exact Hne. left. exact Hlook.
    + right. exists c. split; [right; exact Hin | reflexivity].
Qed.

Lemma set_all_lookup_other (b : bool) (cs : list (string * Http.Cookie))
    (response : Http.Response) (name : string) :
  (∀ c, ¬ In (name, c) cs) →
  Http.cookies (LoginRouteManual.set_all b cs response) !! name
  = Http.cookies response !! name.
Proof.
  revert response. induction cs as [| [k v] cs IH]; intros response Hfresh.
  - reflexivity.
  - rewrite set_all_cons, IH.
    + simpl. apply lookup_insert_ne. intros ->.
      apply (Hfresh v). left. reflexivity.
    + intros c Hin. apply (Hfresh c). right. exact Hin.
Qed.

(** With pairwise distinct names, every cookie of the list ends up on the
    response with its own value and the handler's options. *)
Lemma set_all_lookup_In (b : bool) (cs : list (string * Http.Cookie))
    (response : Http.Response) (name : string) (c : Http.Cookie) :
  NoDup (cs.*1) → In (name, c) cs →
  Http.cookies (LoginRouteManual.set_all b cs response) !! name
  = Some {| Http.cookie_value := Http.cookie_value c;
            Http.cookie_options := LoginRouteManual.cookieOptions b |}.
Proof.
  revert response. induction cs as [| [k v] cs IH]; intros response Hnd Hin.
  - destruct Hin.
  - rewrite set_all_cons. simpl in Hnd. inversion Hnd as [| ? ? Hnotin Hnd']; subst.
    destruct Hin as [Heq | Hin].
    + inversion Heq; subst. rewrite set_all_lookup_other.
      * simpl. apply lookup_insert_eq.
      * intros c' Hin'. apply Hnotin. apply list_elem_of_In.
        apply (in_map fst) in Hin'. exact Hin'.
    + apply IH; assumption.
Qed.

Lemma NoDup_fst_filter {A B : Type} (f : A * B → bool) (l : list (A * B)) :
  NoDup (l.*1) → NoDup ((List.filter f l).*1).
Proof.
  induction l as [| x l IH]; intros Hnd; simpl.
  - constructor.
  - simpl in Hnd. inversion Hnd as [| ? ? Hnotin Hnd']; subst.
    destruct (f x).
    + simpl. constructor; [| apply IH; exact Hnd'].
      intros Hin. apply Hnotin. apply list_elem_of_In in Hin.
      apply list_elem_of_In. apply in_map_iff in Hin.
      destruct Hin as (y & Hy & Hin). apply filter_In in Hin.
      apply in_map_iff. exists y. tauto.
    + apply IH. exact Hnd'.
Qed.

Lemma supabaseCookies_In (jar : gmap string Http.Cookie) (name : string)
    (c : Http.Cookie) :
  In (name, c) (LoginRouteManual.supabaseCookies (map_to_list jar))
  ↔ jar !! name = Some c ∧ Js.startsWith name "sb-" = true.
Proof.
  unfold LoginRouteManual.supabaseCookies. rewrite filter_In.
  rewrite <- list_elem_of_In, elem_of_map_to_list. reflexivity.
Qed.

(** Every run of the manual route returns.  Its response either carries no
    cookie at all, or is the 200 answer on which the loop re-set the
    [sb-] cookies found in the jar; the jar itself is only ever written by
    the provider's client while it stores the session. *)
Lemma manual_post_shape (request : Http.Request) (w : World) :
  ∃ response w',
    LoginRouteManual.POST request w = (Returned response, w')
    ∧ node_env w' = node_env w
    ∧ (Http.cookies response = ∅ ∧ Http.status response ≠ 200%Z
       ∨ ∃ u, response
              = LoginRouteManual.set_all
                  (String.eqb (node_env w) "production")
                  (LoginRouteManual.supabaseCookies
                     (map_to_list (cookie_jar w')))
                  (Http.json (LoginRouteManual.success u) 200))
    ∧ (cookie_jar w' = cookie_jar w
       ∨ ∃ e p, cookie_jar w'
                = write_cookies (String.eqb (node_env w) "production")
                    (written_cookies (provider_password w e p))
                    (cookie_jar w)).
Proof.
  unfold LoginRouteManual.POST. run.
  destruct (Http.json_body request) as [parsed |]; run;
    [| eexists _, _; split; [reflexivity |]; split; [reflexivity |];
       split; [left; split; [reflexivity | discriminate] | left; reflexivity]].
  destruct (Js.get parsed "email") as [e |]; run;
    [| eexists _, _; split; [reflexivity |]; split; [reflexivity |];
       split; [left; split; [reflexivity | discriminate] | left; reflexivity]].
  destruct (Js.get parsed "password") as [p |]; run;
    [| eexists _, _; split; [reflexivity |]; split; [reflexivity |];
       split; [left; split; [reflexivity | discriminate] | left; reflexivity]].
  destruct (negb (Js.truthy e) || negb (Js.truthy p)); run;
    [eexists _, _; split; [reflexivity |]; split; [reflexivity |];
       split; [left; split; [reflexivity | discriminate] | left; reflexivity] |].
  unfold signInWithPassword, store_session.
  destruct (provider_password w e p) as [du ds er wc] eqn:Hr. simpl.
  destruct er as [msg |]; run;
    [eexists _, _; split; [reflexivity |]; split; [reflexivity |];
       split; [left; split; [reflexivity | discriminate] | left; reflexivity] |].
  destruct ds as [s |]; run;
    [| eexists _, _; split; [reflexivity |]; split; [reflexivity |];
       split; [left; split; [reflexivity | discriminate] | left; reflexivity]].
  destruct du as [u |]; run.
  - eexists _, _. split; [reflexivity |]. split; [reflexivity |].
    split.
    + right. exists u. reflexivity.
    + right. exists e, p. rewrite Hr. reflexivity.
  - eexists _, _. split; [reflexivity |]. split; [reflexivity |].
    split; [left; split; [reflexivity | discriminate] |].
    right. exists e, p. rewrite Hr. reflexivity.
Qed.



(** C2, as amended.  On every cookie the manual login route sets on its
    response, [httpOnly] is [false] and [maxAge] is 34560000 seconds (400
    days), whatever the provider chose for that cookie. *)
Theorem manual_login_fixed_httpOnly_maxAge (request : Http.Request) (w : World) :
  ∃ response w',
    LoginRouteManual.POST request w = (Returned response, w')
    ∧ ∀ name rc,
        Http.cookies response !! name = Some rc →
        Http.httpOnly (Http.cookie_options rc) = Some false
        ∧ Http.maxAge (Http.cookie_options rc) = Some 34560000%Z.
Proof.
  destruct (manual_post_shape request w)
    as (response & w' & Hrun & _ & Hresp & _).
  exists response, w'. split; [exact Hrun |].
  intros name rc Hlook.
  destruct Hresp as [[Hempty _] | [u ->]].
  - rewrite Hempty, lookup_empty in Hlook. discriminate Hlook.
  - apply set_all_lookup_Some in Hlook.
    destruct Hlook as [Hlook | (c & _ & ->)].
    + simpl in Hlook. rewrite lookup_empty in Hlook. discriminate Hlook.
    + split; reflexivity.
Qed.

Lemma manual_login_fixed_httpOnly_maxAge_witness :
  ∃ response w',
    LoginRouteManual.POST (Sample.login_request (Some Sample.credentials))
      Sample.world = (Returned response, w')
    ∧ ∀ name rc,
        Http.cookies response !! name = Some rc →
        Http.httpOnly (Http.cookie_options rc) = Some false
        ∧ Http.maxAge (Http.cookie_options rc) = Some 34560000%Z.
Proof.
  exact (manual_login_fixed_httpOnly_maxAge
           (Sample.login_request (Some Sample.credentials)) Sample.world).
Defined.

(** C2 as stated fails when the provider does not use the handler's
    constants: here it writes its session cookie with [httpOnly] set and a
    one-hour [maxAge]; the cookie the route re-sets has [httpOnly] cleared
    and a [maxAge] of 400 days. *)
Lemma manual_login_overrides_provider_attributes_counterexample :
  ∃ response w' rc,
    LoginRouteManual.POST (Sample.login_request (Some Sample.credentials))
      Sample.world = (Returned response, w')
    ∧ In ("sb-proj-auth-token", Sample.provider_cookie)
         (written_cookies
            (provider_password Sample.world (Js.Str "alice@example.com")
               (Js.Str "secret")))
    ∧ Http.httpOnly (Http.cookie_options Sample.provider_cookie) = Some true
    ∧ Http.maxAge (Http.cookie_options Sample.provider_cookie) = Some 3600%Z
    ∧ (∃ c, cookie_jar w' !! "sb-proj-auth-token" = Some c
            ∧ Http.httpOnly (Http.cookie_options c) = Some true
            ∧ Http.maxAge (Http.cookie_options c) = Some 3600%Z)
    ∧ Http.cookies response !! "sb-proj-auth-token" = Some rc
    ∧ Http.httpOnly (Http.cookie_options rc) = Some false
    ∧ Http.maxAge (Http.cookie_options rc) = Some 34560000%Z.
Proof.
  eexists _, _, _. split; [reflexivity |].
  split; [left; reflexivity |].
  split; [reflexivity |]. split; [reflexivity |].
  split; [eexists; split; [vm_compute; reflexivity | split; reflexivity] |].
  split; [vm_compute; reflexivity |].
  split; reflexivity.
Qed.

(** C10.  The manual login route sets no cookie on its response under a
    name that does not start with [sb-]; and a jar cookie under such a
    name, which the provider's client does not write either, is in the jar
    afterwards with the value and attributes it had. *)
Theorem manual_login_touches_only_sb_cookies
    (request : Http.Request) (w : World) :
  ∃ response w',
    LoginRouteManual.POST request w = (Returned response, w')
    ∧ ∀ name c,
        cookie_jar w !! name = Some c → Js.startsWith name "sb-" = false →
        Http.cookies response !! name = None
        ∧ ((∀ e p v, ¬ In (name, v)
                         (written_cookies (provider_password w e p))) →
           cookie_jar w' !! name = Some c).
Proof.
  destruct (manual_post_shape request w)
    as (response & w' & Hrun & _ & Hresp & Hjar).
  exists response, w'. split; [exact Hrun |].
  intros name c Hc Hsb. split.
  - destruct Hresp as [[Hempty _] | [u ->]].
    + rewrite Hempty. apply lookup_empty.
    + rewrite set_all_lookup_other; [apply lookup_empty |].
      intros c' Hin. apply supabaseCookies_In in Hin.
      destruct Hin as [_ Hsb']. congruence.
  - intros Hprov. destruct Hjar as [-> | (e & p & ->)]; [exact Hc |].
    rewrite write_cookies_other; [exact Hc |]. apply Hprov.
Qed.

Lemma manual_login_touches_only_sb_cookies_witness :
  ∃ response w',
    LoginRouteManual.POST (Sample.login_request (Some Sample.credentials))
      Sample.world = (Returned response, w')
    ∧ Http.cookies response !! "theme" = None
    ∧ cookie_jar w' !! "theme" = Some Sample.theme_cookie.
Proof.
  destruct (manual_login_touches_only_sb_cookies
              (Sample.login_request (Some Sample.credentials)) Sample.world)
    as (response & w' & Hrun & Hframe).
  exists response, w'. split; [exact Hrun |].
  destruct (Hframe "theme" Sample.theme_cookie) as [Hnone Hkept];
    [reflexivity | reflexivity |].
  split; [exact Hnone |]. apply Hkept.
  intros e p v Hin. simpl in Hin. unfold Sample.password_oracle in Hin.
  destruct e; try (destruct Hin; fail).
  destruct p; try (destruct Hin; fail).
  destruct (String.eqb s "alice@example.com" && String.eqb s0 "secret").
  - destruct Hin as [Heq | []]. discriminate Heq.
  - destruct Hin.
Defined.

(* ===================================================================== *)
(** * Facts about the OAuth callback *)
(* ===================================================================== *)

Lemma store_session_frame (r : AuthResponse) (w : World) :
  profiles (store_session r w) = profiles w
  ∧ calls (store_session r w) = calls w
  ∧ now (store_session r w) = now w
  ∧ store_refuses (store_session r w) = store_refuses w
  ∧ provider_exchange (store_session r w) = provider_exchange w.
Proof.
  unfold store_session.
  destruct (error r); [repeat split |].
  destruct (data_session r); repeat split.
Qed.

Lemma after_lookup_frame (w : World) (code : string) (u : User) :
  profiles (Spec.after_lookup w code u) = profiles w
  ∧ calls (Spec.after_lookup w code u)
    = calls w ++ [ExchangeCodeForSession code; SelectProfile (id u)]
  ∧ now (Spec.after_lookup w code u) = now w
  ∧ store_refuses (Spec.after_lookup w code u) = store_refuses w
  ∧ provider_exchange (Spec.after_lookup w code u) = provider_exchange w.
Proof.
  unfold Spec.after_lookup. cbn [profiles calls now store_refuses
                                   provider_exchange log_call].
  destruct (store_session_frame (provider_exchange w code)
              (log_call (ExchangeCodeForSession code) w))
    as (Hp & Hc & Hn & Hs & Hx).
  rewrite Hp, Hc, Hn, Hs, Hx. cbn [profiles calls now store_refuses
                                     provider_exchange log_call].
  rewrite <- app_assoc. repeat split.
Qed.

Lemma truthy_code (code : string) :
  code ≠ "" → Js.truthy (Js.of_string (Some code)) = true.
Proof.
  intros Hne. simpl. apply negb_true_iff. apply String.eqb_neq. exact Hne.
Qed.

Lemma is_Some_None_false {A : Type} :
  bool_decide (is_Some (@None A)) = false.
Proof. reflexivity. Qed.

Lemma is_Some_Some_true {A : Type} (x : A) :
  bool_decide (is_Some (Some x)) = true.
Proof. reflexivity. Qed.

Lemma display_name_or (u : User) :
  Js.or (Js.or (Js.get_opt (user_metadata u) "full_name")
               (Js.get_opt (user_metadata u) "name"))
        (Js.Str "User")
  = Spec.display_name u.
Proof.
  unfold Spec.display_name, Js.or.
  destruct (Js.truthy (Js.get_opt (user_metadata u) "full_name")) eqn:Hfull.
  - rewrite Hfull. reflexivity.
  - reflexivity.
Qed.

(** Runs the callback up to and including the profile lookup, for a request
    with a code that the provider exchanges without error for a user. *)
Ltac oauth_exchange Hcode Hne Herr Huser :=
  unfold OAuthCallback.GET; run;
  rewrite Hcode, (truthy_code _ Hne);
  cbn [negb default from_option]; unfold Datatypes.id; run;
  unfold exchangeCodeForSession;
  rewrite Herr, Huser, is_Some_None_false;
  unfold select_profile;
  rewrite (proj1 (store_session_frame _ _));
  cbn [profiles log_call].

(** The login flow, once the provider has answered with a user. *)
Lemma oauth_login_run (request : Http.Request) (w : World) (code : string)
    (u : User) :
  Spec.has_code request code → ¬ Spec.register_flow request →
  error (provider_exchange w code) = None →
  data_user (provider_exchange w code) = Some u →
  OAuthCallback.GET request w
  = match profiles w !! id u with
    | Some p =>
        if is_admin p then
          (Returned
             (OAuthCallback.error_redirect (Http.origin request) "/login"
                "admin_oauth_blocked"
                "Admin hanya dapat login menggunakan email dan password. Google OAuth tidak diizinkan untuk admin."),
           set_session None (log_call SignOut (Spec.after_lookup w code u)))
        else
          (Returned (Http.redirect (Http.origin request +:+ "/cari-jodoh")),
           Spec.after_lookup w code u)
    | None =>
        (Returned
           (OAuthCallback.error_redirect (Http.origin request) "/login"
              "account_not_found"
              "Akun Google Anda belum terdaftar. Silakan lakukan registrasi terlebih dahulu."),
         set_session None (log_call SignOut (Spec.after_lookup w code u)))
    end.
Proof.
  intros [Hcode Hne] Hflow Herr Huser.
  oauth_exchange Hcode Hne Herr Huser.
  rewrite (bool_decide_eq_false_2 _ Hflow).
  destruct (profiles w !! id u) as [p |]; cbn [negb from_option].
  - destruct (is_admin p); reflexivity.
  - reflexivity.
Qed.

(** The register flow, once the provider has answered with a user. *)
Lemma oauth_register_run (request : Http.Request) (w : World) (code : string)
    (u : User) :
  Spec.has_code request code → Spec.register_flow request →
  error (provider_exchange w code) = None →
  data_user (provider_exchange w code) = Some u →
  OAuthCallback.GET request w
  = let w2 := Spec.after_lookup w code u in
    let row := Spec.placeholder_row u (now w) in
    match profiles w !! id u with
    | Some p =>
        (Returned
           (Http.redirect
              (Http.origin request
               +:+ (if bool_decide (is_Some (registered_at p))
                    then "/cari-jodoh" else "/onboarding/verifikasi"))),
         w2)
    | None =>
        match store_refuses w row with
        | Some _ =>
            (Returned
               (OAuthCallback.error_redirect (Http.origin request) "/register"
                  "profile_creation_failed"
                  "Gagal membuat profil. Silakan coba lagi."),
             set_session None
               (log_call SignOut (log_call (InsertProfile row) w2)))
        | None =>
            (Returned
               (Http.redirect (Http.origin request +:+ "/onboarding/verifikasi")),
             set_profiles (<[id u := stored row]> (profiles w))
               (log_call (InsertProfile row) w2))
        end
    end.
Proof.
  intros [Hcode Hne] Hflow Herr Huser.
  oauth_exchange Hcode Hne Herr Huser.
  rewrite (bool_decide_eq_true_2 _ Hflow).
  destruct (profiles w !! id u) as [p |] eqn:Hprofile; cbn [negb from_option].
  - destruct (registered_at p); reflexivity.
  - unfold date_now, insert_profile. cbn [now log_call new_user_id].
    rewrite (proj1 (proj2 (proj2 (store_session_frame _ _)))).
    cbn [now log_call profiles store_refuses].
    rewrite (proj1 (store_session_frame _ _)).
    rewrite (proj1 (proj2 (proj2 (proj2 (store_session_frame _ _))))).
    cbn [now log_call profiles store_refuses].
    rewrite Hprofile, display_name_or.
    fold (Spec.placeholder_row u (now w)).
    destruct (store_refuses w (Spec.placeholder_row u (now w))); reflexivity.
Qed.

Lemma append_inj_l (s a b : string) : s +:+ a = s +:+ b → a = b.
Proof.
  induction s as [| c s IH]; simpl; intros H.
  - exact H.
  - apply IH. inversion H. reflexivity.
Qed.

Lemma account_not_found_is_not_admin_blocked (origin : string) :
  OAuthCallback.error_redirect origin "/login" "account_not_found"
    "Akun Google Anda belum terdaftar. Silakan lakukan registrasi terlebih dahulu."
  ≠ OAuthCallback.error_redirect origin "/login" "admin_oauth_blocked"
      "Admin hanya dapat login menggunakan email dan password. Google OAuth tidak diizinkan untuk admin.".
Proof.
  intros H. apply (f_equal Http.location) in H.
  unfold OAuthCallback.error_redirect in H.
  cbn [Http.location Http.redirect] in H.
  apply (f_equal (default EmptyString)) in H. cbn [default from_option] in H.
  unfold Datatypes.id in H.
  apply append_inj_l in H. vm_compute in H. discriminate H.
Qed.

(** C3.  In the login flow (any [flow] other than [register]), when the
    provider exchanges the code without error for a user whose profile row
    exists with [is_admin] set, the callback signs the session out and
    redirects to the login page with [error=admin_oauth_blocked]; the calls
    it made are the exchange, the profile lookup and the sign-out. *)
Theorem oauth_login_admin_is_blocked
    (request : Http.Request) (w : World) (code : string) (u : User)
    (p : Profile) :
  Spec.has_code request code → ¬ Spec.register_flow request →
  error (provider_exchange w code) = None →
  data_user (provider_exchange w code) = Some u →
  profiles w !! id u = Some p → is_admin p = true →
  ∃ response w',
    OAuthCallback.GET request w = (Returned response, w')
    ∧ Http.status response = 307%Z
    ∧ Http.location response
      = Some (Http.origin request
              +:+ "/login" +:+ "?error=" +:+ "admin_oauth_blocked"
              +:+ "&message="
              +:+ Js.encodeURIComponent
                    "Admin hanya dapat login menggunakan email dan password. Google OAuth tidak diizinkan untuk admin.")
    ∧ session w' = None
    ∧ calls w' = calls w ++ [ExchangeCodeForSession code;
                             SelectProfile (id u); SignOut].
Proof.
  intros Hcode Hflow Herr Huser Hprofile Hadmin.
  rewrite (oauth_login_run request w code u Hcode Hflow Herr Huser).
  rewrite Hprofile, Hadmin.
  eexists _, _. split; [reflexivity |].
  split; [reflexivity |]. split; [reflexivity |]. split; [reflexivity |].
  cbn [calls set_session log_call].
  rewrite (proj1 (proj2 (after_lookup_frame w code u))).
  rewrite <- app_assoc. reflexivity.
Qed.

Lemma oauth_login_admin_is_blocked_witness :
  ∃ response w',
    OAuthCallback.GET (Sample.callback_request [])
      (Sample.world_for Sample.alice
         {["u-alice" := Sample.profile_of Sample.alice true None]} None)
    = (Returned response, w')
    ∧ Http.status response = 307%Z
    ∧ Http.location response
      = Some ("https://app.example"
              +:+ "/login" +:+ "?error=" +:+ "admin_oauth_blocked"
              +:+ "&message="
              +:+ Js.encodeURIComponent
                    "Admin hanya dapat login menggunakan email dan password. Google OAuth tidak diizinkan untuk admin.")
    ∧ session w' = None
    ∧ calls w' = [ExchangeCodeForSession "good-code";
                  SelectProfile "u-alice"; SignOut].
Proof.
  apply (oauth_login_admin_is_blocked (Sample.callback_request [])
           (Sample.world_for Sample.alice
              {["u-alice" := Sample.profile_of Sample.alice true None]} None)
           "good-code" Sample.alice (Sample.profile_of Sample.alice true None)).
  - split; [reflexivity | discriminate].
  - discriminate.
  - reflexivity.
  - reflexivity.
  - reflexivity.
  - reflexivity.
Defined.

(** C4, as amended.  In the login flow the admin check does run before the
    profile-absent check, but it reads [is_admin] off the profile row that
    was looked up.  So a user without a profile row is never treated as an
    administrator: the callback signs out and redirects with
    [error=account_not_found], not [admin_oauth_blocked]; and a profile row
    with [is_admin] set yields [admin_oauth_blocked]. *)
Theorem oauth_login_admin_check_reads_profile
    (request : Http.Request) (w : World) (code : string) (u : User) :
  Spec.has_code request code → ¬ Spec.register_flow request →
  error (provider_exchange w code) = None →
  data_user (provider_exchange w code) = Some u →
  ∃ response w',
    OAuthCallback.GET request w = (Returned response, w')
    ∧ (profiles w !! id u = None →
       response
       = OAuthCallback.error_redirect (Http.origin request) "/login"
           "account_not_found"
           "Akun Google Anda belum terdaftar. Silakan lakukan registrasi terlebih dahulu."
       ∧ response
         ≠ OAuthCallback.error_redirect (Http.origin request) "/login"
             "admin_oauth_blocked"
             "Admin hanya dapat login menggunakan email dan password. Google OAuth tidak diizinkan untuk admin."
       ∧ session w' = None)
    ∧ (∀ p, profiles w !! id u = Some p → is_admin p = true →
       response
       = OAuthCallback.error_redirect (Http.origin request) "/login"
           "admin_oauth_blocked"
           "Admin hanya dapat login menggunakan email dan password. Google OAuth tidak diizinkan untuk admin.").
Proof.
  intros Hcode Hflow Herr Huser.
  rewrite (oauth_login_run request w code u Hcode Hflow Herr Huser).
  destruct (profiles w !! id u) as [p |].
  - destruct (is_admin p) eqn:Hadmin.
    + eexists _, _. split; [reflexivity |]. split.
      * intros Habsent. discriminate Habsent.
      * intros p' _ _. reflexivity.
    + eexists _, _. split; [reflexivity |]. split.
      * intros Habsent. discriminate Habsent.
      * intros p' Hp' Hadmin'. inversion Hp'; subst. congruence.
  - eexists _, _. split; [reflexivity |]. split.
    + intros _. split; [reflexivity |].
      split; [apply account_not_found_is_not_admin_blocked | reflexivity].
    + intros p Hp. discriminate Hp.
Qed.

Lemma oauth_login_admin_check_reads_profile_witness :
  ∃ response w',
    OAuthCallback.GET (Sample.callback_request []) Sample.world
    = (Returned response, w')
    ∧ response
      = OAuthCallback.error_redirect "https://app.example" "/login"
          "account_not_found"
          "Akun Google Anda belum terdaftar. Silakan lakukan registrasi terlebih dahulu."
    ∧ session w' = None.
Proof.
  destruct (oauth_login_admin_check_reads_profile
              (Sample.callback_request []) Sample.world "good-code"
              Sample.alice)
    as (response & w' & Hrun & Habsent & _).
  - split; [reflexivity | discriminate].
  - discriminate.
  - reflexivity.
  - reflexivity.
  - exists response, w'. split; [exact Hrun |].
    destruct (Habsent eq_refl) as (Hresp & _ & Hout).
    split; [exact Hresp | exact Hout].
Defined.

(** C4 as stated fails: for a user whom the provider's metadata marks as
    an administrator and who has no profile row, the login flow answers
    [account_not_found], not [admin_oauth_blocked]. *)
Lemma oauth_login_admin_without_profile_counterexample :
  Js.get_opt (user_metadata Sample.root) "is_admin" = Js.Boolean true
  ∧ profiles (Sample.world_for Sample.root ∅ None) !! id Sample.root = None
  ∧ ∃ w',
      OAuthCallback.GET (Sample.callback_request [])
        (Sample.world_for Sample.root ∅ None)
      = (Returned
           (OAuthCallback.error_redirect "https://app.example" "/login"
              "account_not_found"
              "Akun Google Anda belum terdaftar. Silakan lakukan registrasi terlebih dahulu."),
         w')
      ∧ OAuthCallback.error_redirect "https://app.example" "/login"
          "account_not_found"
          "Akun Google Anda belum terdaftar. Silakan lakukan registrasi terlebih dahulu."
        ≠ OAuthCallback.error_redirect "https://app.example" "/login"
            "admin_oauth_blocked"
            "Admin hanya dapat login menggunakan email dan password. Google OAuth tidak diizinkan untuk admin.".
Proof.
  split; [reflexivity |]. split; [reflexivity |].
  eexists. split; [reflexivity |].
  apply account_not_found_is_not_admin_blocked.
Qed.

(** C5.  In the register flow, when the provider exchanges the code
    without error for a user who has no profile row, the callback issues
    exactly one insert, of a row with [registered_at = null] whose
    [full_name] is the metadata's [full_name], else its [name], else
    [User].  If the store refuses the row, the table is unchanged, the
    session is signed out and the answer is a 307 redirect to
    [origin/register?error=profile_creation_failed&message=...].  If it
    accepts, the table gains that one row and the answer is a 307 redirect
    to [origin/onboarding/verifikasi]; a further register callback for the
    same user id then finds the row, inserts nothing and redirects to the
    verification step again. *)
Theorem oauth_register_creates_profile_once
    (request : Http.Request) (w : World) (code : string) (u : User) :
  Spec.has_code request code → Spec.register_flow request →
  error (provider_exchange w code) = None →
  data_user (provider_exchange w code) = Some u →
  profiles w !! id u = None →
  let row := Spec.placeholder_row u (now w) in
  ∃ response w',
    OAuthCallback.GET request w = (Returned response, w')
    ∧ new_registered_at row = None
    ∧ Http.status response = 307%Z
    ∧ Http.body response = None
    ∧ match store_refuses w row with
      | Some _ =>
          Http.location response
          = Some (Http.origin request
                  +:+ "/register" +:+ "?error=" +:+ "profile_creation_failed"
                  +:+ "&message="
                  +:+ Js.encodeURIComponent
                        "Gagal membuat profil. Silakan coba lagi.")
          ∧ calls w' = calls w ++ [ExchangeCodeForSession code;
                                   SelectProfile (id u);
                                   InsertProfile row; SignOut]
          ∧ session w' = None
          ∧ profiles w' = profiles w
      | None =>
          Http.location response
          = Some (Http.origin request +:+ "/onboarding/verifikasi")
          ∧ calls w' = calls w ++ [ExchangeCodeForSession code;
                                   SelectProfile (id u);
                                   InsertProfile row]
          ∧ profiles w' = <[id u := stored row]> (profiles w)
          ∧ size (profiles w') = S (size (profiles w))
          ∧ registered_at (stored row) = None
          ∧ ∀ request2 code2 u2,
              Spec.has_code request2 code2 → Spec.register_flow request2 →
              error (provider_exchange w' code2) = None →
              data_user (provider_exchange w' code2) = Some u2 →
              id u2 = id u →
              ∃ response2 w'',
                OAuthCallback.GET request2 w' = (Returned response2, w'')
                ∧ Http.status response2 = 307%Z
                ∧ Http.location response2
                  = Some (Http.origin request2 +:+ "/onboarding/verifikasi")
                ∧ calls w'' = calls w' ++ [ExchangeCodeForSession code2;
                                           SelectProfile (id u)]
                ∧ profiles w'' = profiles w'
      end.
Proof.
  intros Hcode Hflow Herr Huser Habsent row.
  rewrite (oauth_register_run request w code u Hcode Hflow Herr Huser).
  cbv zeta. rewrite Habsent. fold row.
  destruct (after_lookup_frame w code u) as (Hp & Hc & _).
  destruct (store_refuses w row) as [refusal |].
  - eexists _, _. split; [reflexivity |]. split; [reflexivity |].
    split; [reflexivity |]. split; [reflexivity |].
    split; [reflexivity |]. split; [| split; [reflexivity |]].
    + cbn [calls set_session log_call]. rewrite Hc, <- !app_assoc. reflexivity.
    + cbn [profiles set_session log_call]. exact Hp.
  - eexists _, _. split; [reflexivity |]. split; [reflexivity |].
    split; [reflexivity |]. split; [reflexivity |].
    split; [reflexivity |].
    split; [cbn [calls set_profiles log_call];
            rewrite Hc, <- !app_assoc; reflexivity |].
    split; [reflexivity |].
    split; [cbn [profiles set_profiles];
            apply map_size_insert_None; exact Habsent |].
    split; [reflexivity |].
    intros request2 code2 u2 Hcode2 Hflow2 Herr2 Huser2 Hsame.
    rewrite (oauth_register_run request2 _ code2 u2 Hcode2 Hflow2 Herr2 Huser2).
    cbv zeta. cbn [profiles set_profiles]. rewrite Hsame, lookup_insert_eq.
    cbn [stored registered_at Spec.placeholder_row new_registered_at row].
    rewrite is_Some_None_false.
    eexists _, _. split; [reflexivity |].
    split; [reflexivity |]. split; [reflexivity |].
    destruct (after_lookup_frame
                (set_profiles (<[id u := stored row]> (profiles w))
                   (log_call (InsertProfile row) (Spec.after_lookup w code u)))
                code2 u2) as (Hp2 & Hc2 & _).
    rewrite Hc2, Hp2, Hsame. split; reflexivity.
Qed.

Lemma oauth_register_creates_profile_once_witness :
  ∃ response w',
    OAuthCallback.GET (Sample.callback_request [("flow", "register")])
      Sample.world
    = (Returned response, w')
    ∧ Http.status response = 307%Z
    ∧ Http.location response
      = Some ("https://app.example" +:+ "/onboarding/verifikasi")
    ∧ profiles w'
      = <["u-alice" := stored (Spec.placeholder_row Sample.alice
                                 1700000000000%Z)]> ∅.
Proof.
  destruct (oauth_register_creates_profile_once
              (Sample.callback_request [("flow", "register")]) Sample.world
              "good-code" Sample.alice)
    as (response & w' & Hrun & _ & Hstatus & _ & Hloc & _ & Htable & _).
  - split; [reflexivity | discriminate].
  - reflexivity.
  - reflexivity.
  - reflexivity.
  - reflexivity.
  - exists response, w'. split; [exact Hrun |].
    split; [exact Hstatus |]. split; [exact Hloc | exact Htable].
Defined.

(* ===================================================================== *)
(** * Facts about the completion of onboarding *)
(* ===================================================================== *)

(** C8.  For a signed-in user whose profile has [registered_at = null],
    the first [completeOnboarding] returns success and stamps
    [registered_at] with the current time; a second call, at whatever
    later time, returns success again and changes nothing: the stamp of
    the first call stays.  Through the button of the summary page: the
    first click ends on the landing page with the stamp set, and a second
    click ends there again with the world untouched. *)
Theorem completeOnboarding_stamps_once
    (w : World) (s : Session) (p : Profile) (later : Timestamp)
    (pg : Onboarding.Page) :
  session w = Some s →
  profiles w !! id (session_user s) = Some p →
  registered_at p = None →
  ∃ w1 p1 pg1,
    Onboarding.completeOnboarding Js.Null w
    = (Returned {| Onboarding.success := true;
                   Onboarding.action_error := None |}, w1)
    ∧ profiles w1 !! id (session_user s) = Some p1
    ∧ registered_at p1 = Some (now w)
    ∧ Onboarding.completeOnboarding Js.Null (set_now later w1)
      = (Returned {| Onboarding.success := true;
                     Onboarding.action_error := None |}, set_now later w1)
    ∧ profiles (set_now later w1) !! id (session_user s) = Some p1
    ∧ Onboarding.handleComplete pg w = (Returned pg1, w1)
    ∧ Onboarding.location_href pg1 = "/cari-jodoh"
    ∧ Onboarding.isLoading pg1 = false
    ∧ Onboarding.handleComplete pg1 (set_now later w1)
      = (Returned pg1, set_now later w1).
Proof.
  intros Hs Hp Hreg.
  assert (Hfirst :
    Onboarding.completeOnboarding Js.Null w
    = (Returned {| Onboarding.success := true;
                   Onboarding.action_error := None |},
       set_profiles
         (<[id (session_user s) :=
              {| user_id := user_id p; profile_email := profile_email p;
                 full_name := full_name p; is_admin := is_admin p;
                 registered_at := Some (now w);
                 created_at := created_at p;
                 updated_at := updated_at p |}]> (profiles w)) w)).
  { unfold Onboarding.completeOnboarding. rewrite Hs, Hp, Hreg. reflexivity. }
  rewrite Hfirst.
  match type of Hfirst with _ = (_, ?w1) =>
    assert (Hsecond :
      Onboarding.completeOnboarding Js.Null (set_now later w1)
      = (Returned {| Onboarding.success := true;
                     Onboarding.action_error := None |}, set_now later w1))
  end.
  { unfold Onboarding.completeOnboarding.
    cbn [session profiles set_profiles set_now].
    rewrite Hs, lookup_insert_eq. reflexivity. }
  eexists _, _, _. split; [reflexivity |].
  cbn [profiles set_profiles set_now].
  split; [apply lookup_insert_eq |]. split; [reflexivity |].
  split; [exact Hsecond |]. split; [apply lookup_insert_eq |].
  unfold Onboarding.handleComplete, Onboarding.handleComplete_with.
  rewrite Hfirst, Hsecond.
  repeat split; reflexivity.
Qed.

Lemma completeOnboarding_stamps_once_witness :
  ∃ w1 p1 pg1,
    Onboarding.completeOnboarding Js.Null
      (set_session (Some (Sample.session_of Sample.alice))
         (Sample.world_for Sample.alice
            {["u-alice" := Sample.profile_of Sample.alice false None]} None))
    = (Returned {| Onboarding.success := true;
                   Onboarding.action_error := None |}, w1)
    ∧ profiles w1 !! "u-alice" = Some p1
    ∧ registered_at p1 = Some 1700000000000%Z
    ∧ Onboarding.completeOnboarding Js.Null (set_now 1800000000000%Z w1)
      = (Returned {| Onboarding.success := true;
                     Onboarding.action_error := None |},
         set_now 1800000000000%Z w1)
    ∧ profiles (set_now 1800000000000%Z w1) !! "u-alice" = Some p1
    ∧ Onboarding.handleComplete Sample.summary_page
        (set_session (Some (Sample.session_of Sample.alice))
           (Sample.world_for Sample.alice
              {["u-alice" := Sample.profile_of Sample.alice false None]} None))
      = (Returned pg1, w1)
    ∧ Onboarding.location_href pg1 = "/cari-jodoh"
    ∧ Onboarding.isLoading pg1 = false
    ∧ Onboarding.handleComplete pg1 (set_now 1800000000000%Z w1)
      = (Returned pg1, set_now 1800000000000%Z w1).
Proof.
  apply (completeOnboarding_stamps_once
           (set_session (Some (Sample.session_of Sample.alice))
              (Sample.world_for Sample.alice
                 {["u-alice" := Sample.profile_of Sample.alice false None]}
                 None))
           (Sample.session_of Sample.alice)
           (Sample.profile_of Sample.alice false None) 1800000000000%Z
           Sample.summary_page).
  - reflexivity.
  - reflexivity.
  - reflexivity.
Defined.

(* ===================================================================== *)
(** * Further facts about the OAuth callback *)
(* ===================================================================== *)

Lemma store_session_error (r : AuthResponse) (w : World) (e : string) :
  error r = Some e → store_session r w = w.
Proof. intros H. unfold store_session. rewrite H. reflexivity. Qed.

Lemma oauth_no_code_run (request : Http.Request) (w : World) :
  Js.truthy (Js.of_string
               (Http.searchParams_get "code" (Http.searchParams request)))
  = false →
  OAuthCallback.GET request w
  = (Returned
       (OAuthCallback.error_redirect (Http.origin request) "/login"
          "oauth_failed" "OAuth callback tidak valid"), w).
Proof.
  intros Hfalsy. unfold OAuthCallback.GET. run. rewrite Hfalsy. reflexivity.
Qed.

Lemma oauth_exchange_error_run (request : Http.Request) (w : World)
    (code e : string) :
  Spec.has_code request code →
  error (provider_exchange w code) = Some e →
  OAuthCallback.GET request w
  = (Returned
       (OAuthCallback.error_redirect (Http.origin request) "/login"
          "oauth_exchange_failed" "Gagal memproses login Google"),
     log_call (ExchangeCodeForSession code) w).
Proof.
  intros [Hcode Hne] Herr. unfold OAuthCallback.GET. run.
  rewrite Hcode, (truthy_code _ Hne).
  cbn [negb default from_option]. unfold Datatypes.id. run.
  unfold exchangeCodeForSession.
  rewrite (store_session_error _ _ _ Herr), Herr, is_Some_Some_true.
  reflexivity.
Qed.

Lemma oauth_no_user_run (request : Http.Request) (w : World) (code : string) :
  Spec.has_code request code →
  error (provider_exchange w code) = None →
  data_user (provider_exchange w code) = None →
  OAuthCallback.GET request w
  = (Returned
       (OAuthCallback.error_redirect (Http.origin request) "/login"
          "no_user" "User tidak ditemukan"),
     store_session (provider_exchange w code)
       (log_call (ExchangeCodeForSession code) w)).
Proof.
  intros [Hcode Hne] Herr Huser. unfold OAuthCallback.GET. run.
  rewrite Hcode, (truthy_code _ Hne).
  cbn [negb default from_option]. unfold Datatypes.id. run.
  unfold exchangeCodeForSession.
  rewrite Herr, Huser, is_Some_None_false. reflexivity.
Qed.

Lemma code_cases (request : Http.Request) :
  Js.truthy (Js.of_string
               (Http.searchParams_get "code" (Http.searchParams request)))
  = false
  ∨ ∃ code, Spec.has_code request code.
Proof.
  unfold Spec.has_code.
  destruct (Http.searchParams_get "code" (Http.searchParams request))
    as [code |]; [| left; reflexivity].
  destruct (String.eqb code "") eqn:Hempty.
  - left. simpl. rewrite Hempty. reflexivity.
  - right. exists code. split; [reflexivity |].
    apply String.eqb_neq. exact Hempty.
Qed.

(** X1.  Without a [code] parameter, or with an empty one, the callback
    redirects to the login page with [error=oauth_failed] and leaves the
    world as it was: the provider is not asked, nothing is looked up. *)
Theorem oauth_missing_code_is_rejected_unasked
    (request : Http.Request) (w : World) :
  Http.searchParams_get "code" (Http.searchParams request) = None
  ∨ Http.searchParams_get "code" (Http.searchParams request) = Some "" →
  OAuthCallback.GET request w
  = (Returned
       (OAuthCallback.error_redirect (Http.origin request) "/login"
          "oauth_failed" "OAuth callback tidak valid"), w).
Proof.
  intros Hcode. apply oauth_no_code_run.
  destruct Hcode as [-> | ->]; reflexivity.
Qed.

Lemma oauth_missing_code_is_rejected_unasked_witness :
  OAuthCallback.GET Scenario.callback_without_code Sample.world
  = (Returned
       (OAuthCallback.error_redirect "https://app.example" "/login"
          "oauth_failed" "OAuth callback tidak valid"), Sample.world).
Proof.
  apply (oauth_missing_code_is_rejected_unasked
           Scenario.callback_without_code Sample.world).
  right. reflexivity.
Defined.

(** X2.  When the provider answers the exchange with an error, the
    callback redirects to the login page with
    [error=oauth_exchange_failed], whatever else the answer carries; the
    exchange is the only call made: no profile lookup, no sign-out, and
    session, table and cookie jar are as before. *)
Theorem oauth_exchange_error_is_reported
    (request : Http.Request) (w : World) (code e : string) :
  Spec.has_code request code →
  error (provider_exchange w code) = Some e →
  ∃ w',
    OAuthCallback.GET request w
    = (Returned
         (OAuthCallback.error_redirect (Http.origin request) "/login"
            "oauth_exchange_failed" "Gagal memproses login Google"), w')
    ∧ calls w' = calls w ++ [ExchangeCodeForSession code]
    ∧ session w' = session w
    ∧ profiles w' = profiles w
    ∧ cookie_jar w' = cookie_jar w.
Proof.
  intros Hcode Herr.
  rewrite (oauth_exchange_error_run request w code e Hcode Herr).
  eexists. split; [reflexivity |]. repeat split.
Qed.

Lemma oauth_exchange_error_is_reported_witness :
  ∃ w',
    OAuthCallback.GET (Sample.callback_request [])
      (Scenario.answering Sample.rejected ∅)
    = (Returned
         (OAuthCallback.error_redirect "https://app.example" "/login"
            "oauth_exchange_failed" "Gagal memproses login Google"), w')
    ∧ calls w' = [ExchangeCodeForSession "good-code"]
    ∧ session w' = None
    ∧ profiles w' = ∅
    ∧ cookie_jar w' = {["theme" := Sample.theme_cookie]}.
Proof.
  apply (oauth_exchange_error_is_reported (Sample.callback_request [])
           (Scenario.answering Sample.rejected ∅) "good-code"
           "Invalid login credentials").
  - split; [reflexivity | discriminate].
  - reflexivity.
Defined.

(** X3.  When the exchange reports no error but returns no user, the
    callback redirects to the login page with [error=no_user]; the
    exchange is the only call made, so no profile is looked up and the
    session is not signed out. *)
Theorem oauth_no_user_is_reported
    (request : Http.Request) (w : World) (code : string) :
  Spec.has_code request code →
  error (provider_exchange w code) = None →
  data_user (provider_exchange w code) = None →
  ∃ w',
    OAuthCallback.GET request w
    = (Returned
         (OAuthCallback.error_redirect (Http.origin request) "/login"
            "no_user" "User tidak ditemukan"), w')
    ∧ calls w' = calls w ++ [ExchangeCodeForSession code]
    ∧ profiles w' = profiles w.
Proof.
  intros Hcode Herr Huser.
  rewrite (oauth_no_user_run request w code Hcode Herr Huser).
  eexists. split; [reflexivity |].
  destruct (store_session_frame (provider_exchange w code)
              (log_call (ExchangeCodeForSession code) w)) as (Hp & Hc & _).
  rewrite Hp, Hc. split; reflexivity.
Qed.

Lemma oauth_no_user_is_reported_witness :
  ∃ w',
    OAuthCallback.GET (Sample.callback_request [])
      (Scenario.answering Scenario.empty_answer ∅)
    = (Returned
         (OAuthCallback.error_redirect "https://app.example" "/login"
            "no_user" "User tidak ditemukan"), w')
    ∧ calls w' = [ExchangeCodeForSession "good-code"]
    ∧ profiles w' = ∅.
Proof.
  apply (oauth_no_user_is_reported (Sample.callback_request [])
           (Scenario.answering Scenario.empty_answer ∅) "good-code").
  - split; [reflexivity | discriminate].
  - reflexivity.
  - reflexivity.
Defined.

(** X4.  In the login flow a user whose profile row exists and is not an
    administrator's is redirected to the landing page, whether or not
    onboarding is complete ([registered_at] is not looked at); the calls
    are the exchange and the lookup, there is no sign-out, and the table
    is unchanged. *)
Theorem oauth_login_member_goes_to_landing
    (request : Http.Request) (w : World) (code : string) (u : User)
    (p : Profile) :
  Spec.has_code request code → ¬ Spec.register_flow request →
  error (provider_exchange w code) = None →
  data_user (provider_exchange w code) = Some u →
  profiles w !! id u = Some p → is_admin p = false →
  ∃ w',
    OAuthCallback.GET request w
    = (Returned (Http.redirect (Http.origin request +:+ "/cari-jodoh")), w')
    ∧ calls w' = calls w ++ [ExchangeCodeForSession code;
                             SelectProfile (id u)]
    ∧ profiles w' = profiles w
    ∧ session w'
      = session (store_session (provider_exchange w code) w).
Proof.
  intros Hcode Hflow Herr Huser Hprofile Hadmin.
  rewrite (oauth_login_run request w code u Hcode Hflow Herr Huser).
  rewrite Hprofile, Hadmin.
  eexists. split; [reflexivity |].
  destruct (after_lookup_frame w code u) as (Hp & Hc & _).
  split; [exact Hc |]. split; [exact Hp |].
  unfold Spec.after_lookup, store_session. rewrite Herr.
  destruct (data_session (provider_exchange w code)); reflexivity.
Qed.

Lemma oauth_login_member_goes_to_landing_witness :
  ∃ w',
    OAuthCallback.GET (Sample.callback_request [])
      (Sample.world_for Sample.alice
         {["u-alice" := Sample.profile_of Sample.alice false None]} None)
    = (Returned (Http.redirect ("https://app.example" +:+ "/cari-jodoh")), w')
    ∧ calls w' = [ExchangeCodeForSession "good-code"; SelectProfile "u-alice"]
    ∧ profiles w'
      = {["u-alice" := Sample.profile_of Sample.alice false None]}
    ∧ session w' = Some (Sample.session_of Sample.alice).
Proof.
  refine (oauth_login_member_goes_to_landing (Sample.callback_request [])
            (Sample.world_for Sample.alice
               {["u-alice" := Sample.profile_of Sample.alice false None]} None)
            "good-code" Sample.alice
            (Sample.profile_of Sample.alice false None) _ _ _ _ _ _).
  - split; [reflexivity | discriminate].
  - discriminate.
  - reflexivity.
  - reflexivity.
  - reflexivity.
  - reflexivity.
Defined.

(** X5.  In the register flow a user who already has a profile row is
    redirected to the landing page when [registered_at] is set and to the
    onboarding verification step when it is null.  The admin flag plays no
    part there: an administrator's row is treated like any other.  Nothing
    is inserted, nobody is signed out, the table is unchanged. *)
Theorem oauth_register_existing_profile_resumes
    (request : Http.Request) (w : World) (code : string) (u : User)
    (p : Profile) :
  Spec.has_code request code → Spec.register_flow request →
  error (provider_exchange w code) = None →
  data_user (provider_exchange w code) = Some u →
  profiles w !! id u = Some p →
  ∃ w',
    OAuthCallback.GET request w
    = (Returned
         (Http.redirect
            (Http.origin request
             +:+ match registered_at p with
                 | Some _ => "/cari-jodoh"
                 | None => "/onboarding/verifikasi"
                 end)), w')
    ∧ calls w' = calls w ++ [ExchangeCodeForSession code;
                             SelectProfile (id u)]
    ∧ profiles w' = profiles w.
Proof.
  intros Hcode Hflow Herr Huser Hprofile.
  rewrite (oauth_register_run request w code u Hcode Hflow Herr Huser).
  cbv zeta. rewrite Hprofile.
  destruct (after_lookup_frame w code u) as (Hp & Hc & _).
  destruct (registered_at p); eexists; (split; [reflexivity |]);
    (split; [exact Hc | exact Hp]).
Qed.

Lemma oauth_register_existing_profile_resumes_witness :
  ∃ w',
    OAuthCallback.GET (Sample.callback_request [("flow", "register")])
      (Sample.world_for Sample.alice
         {["u-alice" := Sample.profile_of Sample.alice true
                          (Some 1650000000000%Z)]} None)
    = (Returned (Http.redirect ("https://app.example" +:+ "/cari-jodoh")), w')
    ∧ calls w' = [ExchangeCodeForSession "good-code"; SelectProfile "u-alice"]
    ∧ profiles w'
      = {["u-alice" := Sample.profile_of Sample.alice true
                         (Some 1650000000000%Z)]}.
Proof.
  refine (oauth_register_existing_profile_resumes
            (Sample.callback_request [("flow", "register")])
            (Sample.world_for Sample.alice
               {["u-alice" := Sample.profile_of Sample.alice true
                                (Some 1650000000000%Z)]} None)
            "good-code" Sample.alice
            (Sample.profile_of Sample.alice true (Some 1650000000000%Z))
            _ _ _ _ _).
  - split; [reflexivity | discriminate].
  - reflexivity.
  - reflexivity.
  - reflexivity.
  - reflexivity.
Defined.

(** Splits a run of the callback into its nine paths and rewrites the run
    on each of them. *)
Ltac oauth_paths request w :=
  let Hfalsy := fresh "Hfalsy" in
  let code := fresh "code" in
  let Hcode := fresh "Hcode" in
  let Herr := fresh "Herr" in
  let Huser := fresh "Huser" in
  let Hflow := fresh "Hflow" in
  let Hprofile := fresh "Hprofile" in
  let Hadmin := fresh "Hadmin" in
  let Hrefuse := fresh "Hrefuse" in
  let e := fresh "e" in
  let u := fresh "u" in
  let p := fresh "p" in
  let refusal := fresh "refusal" in
  destruct (code_cases request) as [Hfalsy | [code Hcode]];
  [ rewrite (oauth_no_code_run request w Hfalsy)
  | destruct (error (provider_exchange w code)) as [e |] eqn:Herr;
    [ rewrite (oauth_exchange_error_run request w code e Hcode Herr)
    | destruct (data_user (provider_exchange w code)) as [u |] eqn:Huser;
      [ destruct (decide (Http.searchParams_get "flow"
                            (Http.searchParams request) = Some "register"))
          as [Hflow | Hflow];
        [ rewrite (oauth_register_run request w code u Hcode Hflow Herr Huser);
          cbv zeta;
          destruct (profiles w !! id u) as [p |] eqn:Hprofile;
          [ | destruct (store_refuses w (Spec.placeholder_row u (now w)))
                as [refusal |] eqn:Hrefuse ]
        | rewrite (oauth_login_run request w code u Hcode Hflow Herr Huser);
          destruct (profiles w !! id u) as [p |] eqn:Hprofile;
          [ destruct (is_admin p) eqn:Hadmin | ] ]
      | rewrite (oauth_no_user_run request w code Hcode Herr Huser) ] ] ].

(** Reads a field of a world the callback has produced. *)
Ltac oauth_frame :=
  cbn [profiles calls session set_session set_profiles log_call];
  rewrite ?(proj1 (after_lookup_frame _ _ _)),
          ?(proj1 (proj2 (after_lookup_frame _ _ _))),
          ?(proj1 (store_session_frame _ _)),
          ?(proj1 (proj2 (store_session_frame _ _)));
  cbn [profiles calls session set_session set_profiles log_call].

(** X7.  The callback never removes or alters a profile row.  Outside the
    register flow the table is unchanged; in the register flow it is
    either unchanged or has gained exactly one row, for a user id that had
    none, with [registered_at] null. *)
Theorem oauth_keeps_existing_profiles (request : Http.Request) (w : World) :
  ∃ response w',
    OAuthCallback.GET request w = (Returned response, w')
    ∧ (∀ uid p, profiles w !! uid = Some p → profiles w' !! uid = Some p)
    ∧ (¬ Spec.register_flow request → profiles w' = profiles w)
    ∧ (profiles w' = profiles w
       ∨ ∃ row,
           profiles w !! new_user_id row = None
           ∧ new_registered_at row = None
           ∧ profiles w' = <[new_user_id row := stored row]> (profiles w)).
Proof.
  oauth_paths request w;
    eexists _, _; (split; [reflexivity |]); oauth_frame;
    try (split; [intros uid p0 Hp0; exact Hp0 |];
         split; [intros _; reflexivity | left; reflexivity]).
  split; [| split].
  - intros uid p0 Hp0. rewrite lookup_insert_ne; [exact Hp0 |].
    intros Heq. rewrite <- Heq in Hp0. congruence.
  - intros Hlogin. contradiction.
  - right. exists (Spec.placeholder_row u (now w)).
    split; [exact Hprofile |]. split; reflexivity.
Qed.

(** X8.  One run of the callback asks the provider for at most one
    exchange, and only as its first call; it looks a profile up at most
    once, right after; it inserts at most one row, for the user id it
    looked up; and a sign-out, if any, is its last call and leaves no
    session.  No other call is made. *)
Theorem oauth_call_protocol (request : Http.Request) (w : World) :
  ∃ response w' made,
    OAuthCallback.GET request w = (Returned response, w')
    ∧ calls w' = calls w ++ made
    ∧ Protocol.callback_calls made
    ∧ (In SignOut made → session w' = None).
Proof.
  oauth_paths request w.
  - exists (OAuthCallback.error_redirect (Http.origin request) "/login"
              "oauth_failed" "OAuth callback tidak valid"), w, [].
    split; [reflexivity |]. split; [symmetry; apply app_nil_r |].
    split; [exact I | intros []].
  - eexists _, _, [ExchangeCodeForSession code].
    split; [reflexivity |]. oauth_frame. split; [reflexivity |].
    split; [exact I |]. intros [H | []]. discriminate H.
  - eexists _, _, [ExchangeCodeForSession code; SelectProfile (id u)].
    split; [reflexivity |]. oauth_frame. split; [reflexivity |].
    split; [exact I |]. intros [H | [H | []]]; discriminate H.
  - eexists _, _, [ExchangeCodeForSession code; SelectProfile (id u);
                   InsertProfile (Spec.placeholder_row u (now w)); SignOut].
    split; [reflexivity |]. oauth_frame. rewrite <- !app_assoc.
    split; [reflexivity |]. split; [reflexivity |]. intros _. reflexivity.
  - eexists _, _, [ExchangeCodeForSession code; SelectProfile (id u);
                   InsertProfile (Spec.placeholder_row u (now w))].
    split; [reflexivity |]. oauth_frame. rewrite <- !app_assoc.
    split; [reflexivity |]. split; [reflexivity |].
    intros [H | [H | [H | []]]]; discriminate H.
  - eexists _, _, [ExchangeCodeForSession code; SelectProfile (id u); SignOut].
    split; [reflexivity |]. oauth_frame. rewrite <- !app_assoc.
    split; [reflexivity |]. split; [exact I |]. intros _. reflexivity.
  - eexists _, _, [ExchangeCodeForSession code; SelectProfile (id u)].
    split; [reflexivity |]. oauth_frame. split; [reflexivity |].
    split; [exact I |]. intros [H | [H | []]]; discriminate H.
  - eexists _, _, [ExchangeCodeForSession code; SelectProfile (id u); SignOut].
    split; [reflexivity |]. oauth_frame. rewrite <- !app_assoc.
    split; [reflexivity |]. split; [exact I |]. intros _. reflexivity.
  - eexists _, _, [ExchangeCodeForSession code].
    split; [reflexivity |]. oauth_frame. split; [reflexivity |].
    split; [exact I |]. intros [H | []]. discriminate H.
Qed.

(* ===================================================================== *)
(** * Further facts about the login routes *)
(* ===================================================================== *)

Lemma login_route_table (request : Http.Request) (w : World) :
  LoginRoute.POST request w = Protocol.login_table (λ _ r, r) request w.
Proof.
  unfold LoginRoute.POST, Protocol.login_table. run.
  destruct (Http.json_body request) as [parsed |]; run; [| reflexivity].
  destruct (Js.get parsed "email") as [e |]; run; [| reflexivity].
  destruct (Js.get parsed "password") as [p |]; run; [| reflexivity].
  destruct (negb (Js.truthy e) || negb (Js.truthy p)); run; [reflexivity |].
  unfold signInWithPassword. cbv zeta.
  destruct (error (provider_password w e p)); run; [reflexivity |].
  destruct (data_session (provider_password w e p)); run; [| reflexivity].
  destruct (data_user (provider_password w e p)); run; reflexivity.
Qed.

Lemma login_route_manual_table (request : Http.Request) (w : World) :
  LoginRouteManual.POST request w
  = Protocol.login_table Protocol.manual_finish request w.
Proof.
  unfold LoginRouteManual.POST, Protocol.login_table. run.
  destruct (Http.json_body request) as [parsed |]; run; [| reflexivity].
  destruct (Js.get parsed "email") as [e |]; run; [| reflexivity].
  destruct (Js.get parsed "password") as [p |]; run; [| reflexivity].
  destruct (negb (Js.truthy e) || negb (Js.truthy p)); run; [reflexivity |].
  unfold signInWithPassword. cbv zeta.
  destruct (error (provider_password w e p)); run; [reflexivity |].
  destruct (data_session (provider_password w e p)); run; [| reflexivity].
  destruct (data_user (provider_password w e p)); run; reflexivity.
Qed.

(** Splits a run of a login route, given as its decision table, into its
    paths. *)
Ltac login_paths request w :=
  let parsed := fresh "parsed" in
  let e := fresh "e" in
  let p := fresh "p" in
  let u := fresh "u" in
  let s := fresh "s" in
  let msg := fresh "msg" in
  let Hbody := fresh "Hbody" in
  let He := fresh "He" in
  let Hp := fresh "Hp" in
  let Hfalsy := fresh "Hfalsy" in
  let Herr := fresh "Herr" in
  let Hsession := fresh "Hsession" in
  let Huser := fresh "Huser" in
  unfold Protocol.login_table; cbv zeta;
  destruct (Http.json_body request) as [parsed |] eqn:Hbody;
  [ destruct (Js.get parsed "email") as [e |] eqn:He;
    [ destruct (Js.get parsed "password") as [p |] eqn:Hp;
      [ destruct (negb (Js.truthy e) || negb (Js.truthy p)) eqn:Hfalsy;
        [ | destruct (error (provider_password w e p)) as [msg |] eqn:Herr;
            [ | destruct (data_session (provider_password w e p))
                  as [s |] eqn:Hsession;
                [ destruct (data_user (provider_password w e p))
                    as [u |] eqn:Huser | ] ] ]
      | ]
    | ]
  | ].

(** X9.  When the provider answers the sign-in with an error, both
    variants of the login route answer 401 with the provider's message
    passed through verbatim.  The sign-in is the only call made; no cookie
    is set on the response, and session, table and cookie jar are as
    before. *)
Theorem login_provider_error_is_passed_through
    (request : Http.Request) (w : World) (parsed email password : Js.value)
    (message : string) :
  Http.json_body request = Some parsed →
  Js.get parsed "email" = Some email →
  Js.get parsed "password" = Some password →
  Js.truthy email = true → Js.truthy password = true →
  error (provider_password w email password) = Some message →
  let answer :=
    {| Http.status := 401;
       Http.body := Some (Js.Object [("success", Js.Boolean false);
                                     ("error", Js.Str message)]);
       Http.location := None;
       Http.cookies := ∅ |} in
  LoginRoute.POST request w
  = (Returned answer, log_call (SignInWithPassword email password) w)
  ∧ LoginRouteManual.POST request w
    = (Returned answer, log_call (SignInWithPassword email password) w).
Proof.
  intros Hbody He Hp Hte Htp Herr answer.
  rewrite login_route_table, login_route_manual_table.
  unfold Protocol.login_table. cbv zeta.
  rewrite Hbody, He, Hp, Hte, Htp, Herr.
  rewrite (store_session_error _ _ _ Herr).
  split; reflexivity.
Qed.

Lemma login_provider_error_is_passed_through_witness :
  LoginRoute.POST
    (Sample.login_request
       (Some (Js.Object [("email", Js.Str "alice@example.com");
                         ("password", Js.Str "wrong")])))
    Sample.world
  = (Returned
       {| Http.status := 401;
          Http.body := Some (Js.Object
                               [("success", Js.Boolean false);
                                ("error", Js.Str "Invalid login credentials")]);
          Http.location := None;
          Http.cookies := ∅ |},
     log_call (SignInWithPassword (Js.Str "alice@example.com")
                 (Js.Str "wrong")) Sample.world).
Proof.
  refine (proj1 (login_provider_error_is_passed_through
            (Sample.login_request
               (Some (Js.Object [("email", Js.Str "alice@example.com");
                                 ("password", Js.Str "wrong")])))
            Sample.world
            (Js.Object [("email", Js.Str "alice@example.com");
                        ("password", Js.Str "wrong")])
            (Js.Str "alice@example.com") (Js.Str "wrong")
            "Invalid login credentials" _ _ _ _ _ _)); reflexivity.
Defined.

(** X10.  When the provider reports no error but returns no session, both
    variants answer 401 with the message [Gagal membuat session]; the
    sign-in is the only call made, no profile is looked up and no cookie
    is set on the response. *)
Theorem login_without_session_is_refused
    (request : Http.Request) (w : World) (parsed email password : Js.value) :
  Http.json_body request = Some parsed →
  Js.get parsed "email" = Some email →
  Js.get parsed "password" = Some password →
  Js.truthy email = true → Js.truthy password = true →
  error (provider_password w email password) = None →
  data_session (provider_password w email password) = None →
  let answer :=
    {| Http.status := 401;
       Http.body := Some (Js.Object [("success", Js.Boolean false);
                                     ("error", Js.Str "Gagal membuat session")]);
       Http.location := None;
       Http.cookies := ∅ |} in
  LoginRoute.POST request w
  = (Returned answer, log_call (SignInWithPassword email password) w)
  ∧ LoginRouteManual.POST request w
    = (Returned answer, log_call (SignInWithPassword email password) w).
Proof.
  intros Hbody He Hp Hte Htp Herr Hsession answer.
  rewrite login_route_table, login_route_manual_table.
  unfold Protocol.login_table. cbv zeta.
  rewrite Hbody, He, Hp, Hte, Htp, Herr, Hsession.
  unfold store_session. rewrite Herr, Hsession.
  split; reflexivity.
Qed.

Lemma login_without_session_is_refused_witness :
  LoginRoute.POST (Sample.login_request (Some Sample.credentials))
    (Scenario.answering Scenario.empty_answer ∅)
  = (Returned
       {| Http.status := 401;
          Http.body := Some (Js.Object
                               [("success", Js.Boolean false);
                                ("error", Js.Str "Gagal membuat session")]);
          Http.location := None;
          Http.cookies := ∅ |},
     log_call (SignInWithPassword (Js.Str "alice@example.com")
                 (Js.Str "secret"))
       (Scenario.answering Scenario.empty_answer ∅)).
Proof.
  refine (proj1 (login_without_session_is_refused
            (Sample.login_request (Some Sample.credentials))
            (Scenario.answering Scenario.empty_answer ∅)
            Sample.credentials (Js.Str "alice@example.com") (Js.Str "secret")
            _ _ _ _ _ _ _)); reflexivity.
Defined.

(** X11.  The two variants of the login route differ in nothing but the
    cookies of the response: on every request and in every world they
    return the same status and body and leave the same world, and the
    variant that trusts the framework sets no cookie on the response. *)
Theorem login_variants_agree (request : Http.Request) (w : World) :
  ∃ automatic manual w',
    LoginRoute.POST request w = (Returned automatic, w')
    ∧ LoginRouteManual.POST request w = (Returned manual, w')
    ∧ Http.status manual = Http.status automatic
    ∧ Http.body manual = Http.body automatic
    ∧ Http.location manual = Http.location automatic
    ∧ Http.cookies automatic = ∅.
Proof.
  rewrite login_route_table, login_route_manual_table.
  login_paths request w;
    eexists _, _, _; (split; [reflexivity |]); (split; [reflexivity |]);
    try (repeat split; fail).
  unfold Protocol.manual_finish.
  match goal with
  | |- context [LoginRouteManual.set_all ?b ?cs ?r] =>
      destruct (set_all_status_body b cs r) as [Hs Hb]
  end.
  rewrite Hs, Hb. repeat split.
  clear. generalize (Http.json (LoginRoute.success u) 200).
  match goal with
  | |- context [LoginRouteManual.set_all ?b ?cs] =>
      generalize cs
  end.
  intros cs. induction cs as [| c cs IH]; intros r; [reflexivity |].
  rewrite set_all_cons, IH. reflexivity.
Qed.

(** X12.  The field validation of the login route is JavaScript
    truthiness: for a parsed body that is not [null], the answer is 400
    exactly when the email or the password is falsy (missing, [null],
    [false], [0] or the empty string).  Truthy values of whatever JSON type
    are handed to the provider's sign-in unchanged, as the first call; the
    manual variant answers with the same status. *)
Theorem login_validation_is_truthiness
    (request : Http.Request) (w : World) (parsed email password : Js.value) :
  Http.json_body request = Some parsed →
  Js.get parsed "email" = Some email →
  Js.get parsed "password" = Some password →
  ∃ response manual w',
    LoginRoute.POST request w = (Returned response, w')
    ∧ LoginRouteManual.POST request w = (Returned manual, w')
    ∧ Http.status manual = Http.status response
    ∧ (Http.status response = 400%Z
       ↔ Js.truthy email = false ∨ Js.truthy password = false)
    ∧ (Js.truthy email = true → Js.truthy password = true →
       ∃ rest,
         calls w' = calls w ++ SignInWithPassword email password :: rest).
Proof.
  intros Hbody He Hp.
  rewrite login_route_table, login_route_manual_table.
  unfold Protocol.login_table, Protocol.manual_finish. cbv zeta.
  rewrite Hbody, He, Hp.
  destruct (Js.truthy email), (Js.truthy password); cbn [negb orb];
    try (eexists _, _, _; split; [reflexivity |]; split; [reflexivity |];
         split; [reflexivity |];
         split; [split; [intros _; auto | reflexivity] |];
         intros H1 H2; discriminate).
  assert (Hcalls : calls (store_session (provider_password w email password)
                            (log_call (SignInWithPassword email password) w))
                   = calls w ++ [SignInWithPassword email password]).
  { rewrite (proj1 (proj2 (store_session_frame _ _))). reflexivity. }
  destruct (error (provider_password w email password));
    [| destruct (data_session (provider_password w email password));
       [destruct (data_user (provider_password w email password)) |]];
    eexists _, _, _; (split; [reflexivity |]); (split; [reflexivity |]);
    (split; [try reflexivity; apply set_all_status_body |]);
    (split; [split; [intros H; discriminate H
                    | intros [H | H]; discriminate H] |]);
    intros _ _; cbn [calls log_call]; rewrite Hcalls;
    eexists; rewrite <- ?app_assoc; reflexivity.
Qed.

Lemma login_validation_is_truthiness_witness :
  ∃ response manual w',
    LoginRoute.POST
      (Sample.login_request
         (Some (Js.Object [("email", Js.Number 0);
                           ("password", Js.Str "secret")])))
      Sample.world = (Returned response, w')
    ∧ LoginRouteManual.POST
        (Sample.login_request
           (Some (Js.Object [("email", Js.Number 0);
                             ("password", Js.Str "secret")])))
        Sample.world = (Returned manual, w')
    ∧ Http.status manual = Http.status response
    ∧ (Http.status response = 400%Z
       ↔ Js.truthy (Js.Number 0) = false ∨ Js.truthy (Js.Str "secret") = false)
    ∧ (Js.truthy (Js.Number 0) = true → Js.truthy (Js.Str "secret") = true →
       ∃ rest,
         calls w'
         = calls Sample.world
           ++ SignInWithPassword (Js.Number 0) (Js.Str "secret") :: rest).
Proof.
  refine (login_validation_is_truthiness
            (Sample.login_request
               (Some (Js.Object [("email", Js.Number 0);
                                 ("password", Js.Str "secret")])))
            Sample.world
            (Js.Object [("email", Js.Number 0); ("password", Js.Str "secret")])
            (Js.Number 0) (Js.Str "secret") _ _ _); reflexivity.
Defined.

(** X13.  The profile table has no influence on the answer of either
    login route: the lookup of the admin flag is made for the log only, so
    the same request gets the same answer whatever the table holds; and
    neither route ever writes the table. *)
Theorem login_ignores_profile_table
    (request : Http.Request) (w : World) (table : gmap string Profile) :
  fst (LoginRoute.POST request (set_profiles table w))
  = fst (LoginRoute.POST request w)
  ∧ fst (LoginRouteManual.POST request (set_profiles table w))
    = fst (LoginRouteManual.POST request w)
  ∧ profiles (snd (LoginRoute.POST request w)) = profiles w
  ∧ profiles (snd (LoginRouteManual.POST request w)) = profiles w.
Proof.
  rewrite !login_route_table, !login_route_manual_table.
  unfold Protocol.login_table, Protocol.manual_finish, store_session.
  cbv zeta. cbn [provider_password set_profiles].
  destruct (Http.json_body request) as [parsed |]; [| repeat split].
  destruct (Js.get parsed "email") as [e |]; [| repeat split].
  destruct (Js.get parsed "password") as [p |]; [| repeat split].
  destruct (negb (Js.truthy e) || negb (Js.truthy p)); [repeat split |].
  destruct (error (provider_password w e p)); [repeat split |].
  destruct (data_session (provider_password w e p)); [| repeat split].
  destruct (data_user (provider_password w e p)); repeat split.
Qed.

Lemma set_all_map (b : bool) (jar : gmap string Http.Cookie)
    (response : Http.Response) :
  Http.cookies response = ∅ →
  Http.cookies
    (LoginRouteManual.set_all b
       (LoginRouteManual.supabaseCookies (map_to_list jar)) response)
  = Protocol.reset_cookie b
      <$> filter (λ kv : string * Http.Cookie,
                    Js.startsWith (fst kv) "sb-" = true) jar.
Proof.
  intros Hempty. apply map_eq. intros name. rewrite lookup_fmap.
  destruct (jar !! name) as [c |] eqn:Hjar;
    [destruct (Js.startsWith name "sb-") eqn:Hsb |].
  - rewrite (set_all_lookup_In b _ response name c).
    + rewrite (map_lookup_filter_Some_2 _ jar name c Hjar Hsb). reflexivity.
    + apply NoDup_fst_filter, NoDup_fst_map_to_list.
    + apply supabaseCookies_In. split; assumption.
  - rewrite set_all_lookup_other.
    + rewrite Hempty, lookup_empty.
      rewrite (proj2 (map_lookup_filter_None _ jar name)); [reflexivity |].
      right. intros c' Hc'. simpl. congruence.
    + intros c' Hin. apply supabaseCookies_In in Hin. destruct Hin; congruence.
  - rewrite set_all_lookup_other.
    + rewrite Hempty, lookup_empty.
      rewrite (proj2 (map_lookup_filter_None _ jar name)); [reflexivity |].
      left. exact Hjar.
    + intros c' Hin. apply supabaseCookies_In in Hin. destruct Hin; congruence.
Qed.

(** X14.  The cookies on the response of the manual login route are
    determined by the cookie jar: on the 200 answer they are exactly the
    jar's cookies whose name starts with [sb-], each with its value and
    with the handler's options in place of its own (so without [domain]);
    on every other answer there is none. *)
Theorem manual_login_cookies_are_the_sb_part_of_the_jar
    (request : Http.Request) (w : World) :
  ∃ response w',
    LoginRouteManual.POST request w = (Returned response, w')
    ∧ (Http.status response = 200%Z →
       Http.cookies response
       = Protocol.reset_cookie (String.eqb (node_env w) "production")
           <$> filter (λ kv : string * Http.Cookie,
                         Js.startsWith (fst kv) "sb-" = true)
                 (cookie_jar w'))
    ∧ (Http.status response ≠ 200%Z → Http.cookies response = ∅).
Proof.
  rewrite login_route_manual_table.
  login_paths request w;
    eexists _, _; (split; [reflexivity |]);
    try (split; [intros H; discriminate H | intros _; reflexivity]).
  split.
  - intros _. unfold Protocol.manual_finish.
    rewrite set_all_map by reflexivity.
    cbn [node_env log_call]. unfold store_session.
    rewrite Herr, Hsession. reflexivity.
  - intros Hne. exfalso. apply Hne. apply set_all_status_body.
Qed.

(** X15.  In every answer of either login route the [success] flag of the
    body tells the status: it is [true] exactly on status 200, and the
    status is one of 200, 400, 401 and 500. *)
Theorem login_success_flag_matches_status
    (request : Http.Request) (w : World) :
  ∃ automatic manual w' b,
    LoginRoute.POST request w = (Returned automatic, w')
    ∧ LoginRouteManual.POST request w = (Returned manual, w')
    ∧ Http.body automatic = Some b ∧ Http.body manual = Some b
    ∧ Js.get_opt b "success"
      = Js.Boolean (Z.eqb (Http.status automatic) 200)
    ∧ Http.status manual = Http.status automatic
    ∧ In (Http.status automatic) [200; 400; 401; 500]%Z.
Proof.
  rewrite login_route_table, login_route_manual_table.
  login_paths request w;
    eexists _, _, _, _; (split; [reflexivity |]); (split; [reflexivity |]);
    (split; [reflexivity |]);
    (split; [try reflexivity; apply set_all_status_body |]);
    (split; [reflexivity |]);
    (split; [try reflexivity; apply set_all_status_body |]);
    simpl; tauto.
Qed.

(** X16.  The calls of one run of either login route: none at all when it
    answers 400, otherwise at most the provider's sign-in followed by at
    most one profile lookup, and exactly these two, in this order, before
    a 200 answer.  In particular a login route never signs out and never
    inserts a profile. *)
Theorem login_call_protocol (request : Http.Request) (w : World) :
  ∃ automatic manual w' made,
    LoginRoute.POST request w = (Returned automatic, w')
    ∧ LoginRouteManual.POST request w = (Returned manual, w')
    ∧ calls w' = calls w ++ made
    ∧ Protocol.login_calls made
    ∧ (Http.status automatic = 400%Z → made = [] ∧ w' = w)
    ∧ (Http.status automatic = 200%Z →
       ∃ e p uid, made = [SignInWithPassword e p; SelectProfile uid]).
Proof.
  rewrite login_route_table, login_route_manual_table.
  login_paths request w.
  - eexists _, _, _, []. split; [reflexivity |]. split; [reflexivity |].
    split; [symmetry; apply app_nil_r |]. split; [exact I |].
    split; [intros _; split; reflexivity | intros H; discriminate H].
  - eexists _, _, _, [SignInWithPassword e p].
    split; [reflexivity |]. split; [reflexivity |].
    rewrite (proj1 (proj2 (store_session_frame _ _))).
    split; [reflexivity |]. split; [exact I |].
    split; intros H; discriminate H.
  - eexists _, _, _, [SignInWithPassword e p; SelectProfile (id u)].
    split; [reflexivity |]. split; [reflexivity |].
    cbn [calls log_call]. rewrite (proj1 (proj2 (store_session_frame _ _))).
    cbn [calls log_call]. rewrite <- app_assoc.
    split; [reflexivity |]. split; [exact I |].
    split; [intros H; discriminate H | intros _; eauto].
  - eexists _, _, _, [SignInWithPassword e p].
    split; [reflexivity |]. split; [reflexivity |].
    rewrite (proj1 (proj2 (store_session_frame _ _))).
    split; [reflexivity |]. split; [exact I |].
    split; intros H; discriminate H.
  - eexists _, _, _, [SignInWithPassword e p].
    split; [reflexivity |]. split; [reflexivity |].
    rewrite (proj1 (proj2 (store_session_frame _ _))).
    split; [reflexivity |]. split; [exact I |].
    split; intros H; discriminate H.
  - eexists _, _, _, []. split; [reflexivity |]. split; [reflexivity |].
    split; [symmetry; apply app_nil_r |]. split; [exact I |].
    split; intros H; discriminate H.
  - eexists _, _, _, []. split; [reflexivity |]. split; [reflexivity |].
    split; [symmetry; apply app_nil_r |]. split; [exact I |].
    split; intros H; discriminate H.
  - eexists _, _, _, []. split; [reflexivity |]. split; [reflexivity |].
    split; [symmetry; apply app_nil_r |]. split; [exact I |].
    split; intros H; discriminate H.
Qed.

(* ===================================================================== *)
(** * Further facts about the summary component *)
(* ===================================================================== *)

(** X18.  Once the status has arrived while the component is mounted, the
    5Q row shows the check mark exactly when the 5Q flag of the status is
    set, the CV row shows the check mark when the CV is minimal and the
    warning sign otherwise, never the unknown state, and the
    recommendation block is rendered exactly when the CV is not minimal.
    If the component was unmounted meanwhile, the flags are not touched. *)
Theorem summary_shows_loaded_status
    (s : Summary.Status) (flags : Summary.Flags) (isLoading : bool) :
  let v := Summary.render
             (Summary.load_status true (Returned s) flags) isLoading in
  (Summary.fiveQ_mark v = "✓" ↔ Summary.status_fiveQ s = true)
  ∧ (Summary.cv_mark v = "✓" ↔ Summary.status_cvMinimal s = true)
  ∧ (Summary.cv_mark v = "⚠" ↔ Summary.status_cvMinimal s = false)
  ∧ Summary.cv_text v ≠ "Status tidak diketahui"
  ∧ Summary.recommendation v = negb (Summary.status_cvMinimal s)
  ∧ Summary.load_status false (Returned s) flags = flags.
Proof.
  destruct s as [[] []]; cbv zeta; simpl;
    repeat split; try reflexivity; try discriminate;
    intros H; try reflexivity; discriminate H.
Qed.

(** X19.  When fetching the status fails, the component shows what it
    showed before any status arrived.  The CV row then has a state of its
    own (a dash and [Status tidak diketahui]) and no recommendation is
    rendered; the 5Q row has none: it is rendered exactly as for a status
    whose 5Q flag is not set. *)
Theorem summary_unknown_status
    (e : string) (s : Summary.Status) (flags : Summary.Flags)
    (isLoading : bool) :
  let unknown := Summary.render
                   (Summary.load_status true (Thrown e) flags) isLoading in
  let loaded := Summary.render
                  (Summary.load_status true (Returned s) flags) isLoading in
  unknown = Summary.render Summary.initial isLoading
  ∧ Summary.cv_mark unknown = "-"
  ∧ Summary.cv_text unknown = "Status tidak diketahui"
  ∧ Summary.recommendation unknown = false
  ∧ (Summary.status_fiveQ s = false →
     Summary.fiveQ_mark unknown = Summary.fiveQ_mark loaded
     ∧ Summary.fiveQ_text unknown = Summary.fiveQ_text loaded
     ∧ Summary.fiveQ_class unknown = Summary.fiveQ_class loaded)
  ∧ Summary.cv_mark unknown ≠ Summary.cv_mark loaded.
Proof.
  cbv zeta. split; [reflexivity |]. split; [reflexivity |].
  split; [reflexivity |]. split; [reflexivity |]. split.
  - intros Hq. destruct s as [q c]. simpl in Hq. subst q.
    repeat split.
  - destruct s as [q []]; simpl; discriminate.
Qed.

(* ===================================================================== *)
(** * Facts about the origin recovered in the catch *)
(* ===================================================================== *)

Lemma split_head_unfold (s sep : string) :
  Js.split_head s sep
  = if String.prefix sep s then EmptyString
    else match s with
         | EmptyString => EmptyString
         | String c rest => String c (Js.split_head rest sep)
         end.
Proof. destruct s; reflexivity. Qed.

Lemma contains_unfold (s sep : string) :
  Protocol.contains s sep
  = String.prefix sep s
    || match s with
       | EmptyString => false
       | String _ rest => Protocol.contains rest sep
       end.
Proof. destruct s; reflexivity. Qed.

Lemma prefix_append (p s t : string) :
  String.prefix p s = true → String.prefix p (s +:+ t) = true.
Proof.
  revert s. induction p as [| a p IH]; intros s H;
    [destruct (s +:+ t); reflexivity |].
  destruct s as [| b s]; [discriminate H |].
  simpl in *. destruct (ascii_dec a b); [| discriminate H].
  apply IH. exact H.
Qed.

(** X21.  The origin the callback falls back to in its [catch] is the
    part of the request URL before the first [/auth/callback]: the URL is
    that part followed by a rest which, when the URL contains the marker,
    starts with it, and the marker does not occur in the part itself.  For
    a URL without the marker it is the whole URL. *)
Theorem catch_origin_is_url_before_marker (url : string) :
  let origin := Js.split_head url "/auth/callback" in
  (∃ rest,
     url = origin +:+ rest
     ∧ (Protocol.contains url "/auth/callback" = true →
        String.prefix "/auth/callback" rest = true))
  ∧ Protocol.contains origin "/auth/callback" = false
  ∧ (Protocol.contains url "/auth/callback" = false → origin = url).
Proof.
  cbv zeta. induction url as [| c url IH].
  - split; [exists EmptyString; split; [reflexivity | intros H; discriminate H] |].
    split; [reflexivity | reflexivity].
  - destruct IH as ((rest & Hurl & Hrest) & Hnot & Hwhole).
    rewrite split_head_unfold, (contains_unfold (String c url)).
    destruct (String.prefix "/auth/callback" (String c url)) eqn:Hhere.
    + split; [exists (String c url); split; [reflexivity | intros _; exact Hhere] |].
      split; [reflexivity | intros H; discriminate H].
    + cbn [orb]. split; [| split].
      * exists rest. split; [| exact Hrest].
        change (String c url
                = String c (Js.split_head url "/auth/callback" +:+ rest)).
        rewrite <- Hurl. reflexivity.
      * rewrite contains_unfold, Hnot, orb_false_r.
        destruct (String.prefix "/auth/callback"
                    (String c (Js.split_head url "/auth/callback")))
          eqn:Hp; [| reflexivity].
        apply (prefix_append _ _ rest) in Hp.
        change (String.prefix "/auth/callback"
                  (String c (Js.split_head url "/auth/callback" +:+ rest))
                = true) in Hp.
        rewrite <- Hurl, Hhere in Hp. discriminate Hp.
      * intros H. rewrite (Hwhole H). reflexivity.
Qed.

(* ===================================================================== *)
(** * The callback and the click handler over rejecting collaborators *)
(* ===================================================================== *)

Lemma open_GET_resolving (request : Http.Request) :
  Open.GET Open.resolving request = OAuthCallback.GET request.
Proof. reflexivity. Qed.

(** Closes a path of the callback on which the answer is explicit, with
    the position of its target in the list. *)
Tactic Notation "redirect_found" integer(n) :=
  eexists _, _, _; split; [reflexivity |];
  split; [reflexivity |]; split; [reflexivity |];
  split; [reflexivity |]; split; [reflexivity |];
  cbv zeta; do n right; left; reflexivity.

(** X6.  Whatever the awaited calls do, resolve or reject, every run of
    the callback returns a redirect: status 307, no body, no cookie set on
    the response by the handler, and a target that is one of the nine of
    [Protocol.callback_targets]: the seven error pages, the landing page
    and the verification step.  The bare [origin/login] of the fallback
    after the two flows is never the target. *)
Theorem oauth_always_redirects
    (client : Open.Client) (request : Http.Request) (w : World) :
  ∃ response w' target,
    Open.GET client request w = (Returned response, w')
    ∧ Http.status response = 307%Z
    ∧ Http.body response = None
    ∧ Http.cookies response = ∅
    ∧ Http.location response = Some target
    ∧ In target (Protocol.callback_targets request).
Proof.
  unfold Open.GET, Protocol.callback_targets, OAuthCallback.error_redirect.
  run.
  destruct (negb (Js.truthy (Js.of_string
              (Http.searchParams_get "code" (Http.searchParams request)))));
    [redirect_found 0 |].
  destruct (Open.createClient client w) as [[[] | e0] w0];
    [| redirect_found 8].
  destruct (Open.exchangeCodeForSession client _ w0) as [[x | e1] w1];
    [| redirect_found 8].
  destruct (bool_decide (is_Some (error x))); [redirect_found 1 |].
  destruct (data_user x) as [user |]; [| redirect_found 2].
  destruct (Open.select_profile client (id user) w1) as [[profile | e2] w2];
    [| redirect_found 8].
  destruct (bool_decide (Http.searchParams_get "flow"
                           (Http.searchParams request) = Some "register"));
    cbn [negb].
  - destruct profile as [p |]; cbn [from_option].
    + destruct (bool_decide (is_Some (registered_at p))); cbn [negb];
        [redirect_found 5 | redirect_found 6].
    + destruct (Open.createAdminClient client w2) as [[[] | e3] w3];
        [| redirect_found 8].
      unfold Sdk.date_now.
      destruct (Open.insert_profile client _ w3) as [[insertError | e4] w4];
        [| redirect_found 8].
      destruct (bool_decide (is_Some insertError)); [| redirect_found 6].
      destruct (Open.signOut client w4) as [[[] | e5] w5];
        [redirect_found 7 | redirect_found 8].
  - destruct profile as [p |]; cbn [from_option].
    + destruct (is_admin p).
      * destruct (Open.signOut client w2) as [[[] | e3] w3];
          [redirect_found 3 | redirect_found 8].
      * rewrite is_Some_Some_true. cbn [negb]. redirect_found 5.
    + rewrite is_Some_None_false. cbn [negb].
      destruct (Open.signOut client w2) as [[[] | e3] w3];
        [redirect_found 4 | redirect_found 8].
Qed.

Lemma oauth_always_redirects_witness :
  ∃ response w',
    Open.GET Open.unreachable_provider (Sample.callback_request [])
      Sample.world = (Returned response, w')
    ∧ Http.status response = 307%Z
    ∧ Http.location response
      = Some ("https://app.example"
              +:+ "/login" +:+ "?error=" +:+ "unexpected_error"
              +:+ "&message="
              +:+ Js.encodeURIComponent
                    "Terjadi kesalahan saat memproses login. Silakan coba lagi.").
Proof.
  destruct (oauth_always_redirects Open.unreachable_provider
              (Sample.callback_request []) Sample.world)
    as (response & w' & target & Hrun & Hstatus & _).
  exists response, w'. split; [exact Hrun |]. split; [exact Hstatus |].
  assert (Hcatch :
    Open.GET Open.unreachable_provider (Sample.callback_request [])
      Sample.world
    = (Returned
         (OAuthCallback.error_redirect "https://app.example" "/login"
            "unexpected_error"
            "Terjadi kesalahan saat memproses login. Silakan coba lagi."),
       Sample.world)) by (vm_compute; reflexivity).
  rewrite Hcatch in Hrun. injection Hrun as Hresponse _.
  rewrite <- Hresponse. reflexivity.
Defined.

(** X17.  Whatever the server action does, [handleComplete] returns with
    the loading flag cleared and with the world as the action left it.  It
    navigates only when the action resolves with success, and then to the
    landing page, logging nothing; when the action resolves with a failure
    or rejects, the location stays and exactly one error is logged: the
    action's error, or what it rejected with. *)
Theorem handleComplete_clears_loading
    (action : Js.value → Task Onboarding.ActionResult)
    (pg : Onboarding.Page) (w : World) :
  ∃ pg',
    Onboarding.handleComplete_with action pg w
    = (Returned pg', snd (action Js.Null w))
    ∧ Onboarding.isLoading pg' = false
    ∧ match fst (action Js.Null w) with
      | Returned result =>
          if Onboarding.success result then
            Onboarding.location_href pg' = "/cari-jodoh"
            ∧ Onboarding.console_errors pg' = Onboarding.console_errors pg
          else
            Onboarding.location_href pg' = Onboarding.location_href pg
            ∧ Onboarding.console_errors pg'
              = Onboarding.console_errors pg
                ++ [Onboarding.action_error result]
      | Thrown e =>
          Onboarding.location_href pg' = Onboarding.location_href pg
          ∧ Onboarding.console_errors pg'
            = Onboarding.console_errors pg ++ [Some e]
      end.
Proof.
  unfold Onboarding.handleComplete_with.
  destruct (action Js.Null w) as [[result | e] w']; cbn [fst snd].
  - destruct (Onboarding.success result);
      eexists; (split; [reflexivity |]); (split; [reflexivity |]);
      split; reflexivity.
  - eexists. split; [reflexivity |]. split; [reflexivity |].
    split; reflexivity.
Qed.

Lemma handleComplete_clears_loading_witness :
  ∃ pg',
    Onboarding.handleComplete_with Open.failing_action Sample.summary_page
      Sample.world = (Returned pg', Sample.world)
    ∧ Onboarding.isLoading pg' = false
    ∧ Onboarding.location_href pg' = "/onboarding/selesai"
    ∧ Onboarding.console_errors pg' = [Some "fetch failed"].
Proof.
  destruct (handleComplete_clears_loading Open.failing_action
              Sample.summary_page Sample.world)
    as (pg' & Hrun & Hloading & Hcatch).
  exists pg'. split; [exact Hrun |]. split; [exact Hloading |]. exact Hcatch.
Defined.
